(** * Data transformation and storage stage of the churn pipeline

    A shallow embedding of [src/data_transformation_storage.py]
    (class [DataTransformationStorage]) and statements about it.

    Modelling conventions.
    - A pandas [DataFrame] is an ordered list of named columns; column
      names are taken to be distinct, as [pd.read_csv] produces them.
    - A numeric cell is an IEEE double abstracted to an exact rational,
      extended with [NaN] and the two infinities (there is no negative
      zero, and no rounding error).  Integer and boolean cells are the
      rationals they denote; a missing value is [NaN].
    - Text cells are carried around but never computed with: arithmetic
      that meets a text cell stops with [Unsupported].
    - Column names and paths are ASCII strings.
    - The SQLite file is a finite map of tables and a finite map of
      indexes, as the open connection sees them; identifiers are
      compared exactly.
    - The readings of the wall clock, the files on disk with their
      modification times, and the two scikit-learn scalers are inputs.
      Logging has no counterpart. *)

From Stdlib Require Import ZArith QArith Qminmax Qabs Qcanon List String Ascii.
From Stdlib Require Import Bool Lia.
From stdpp Require Import base option list strings gmap fin_maps.

Local Open Scope string_scope.

(** ** Outcomes of a call *)

Inductive error :=
| KeyError (key : string)
| ValueError
| Unsupported
| OperationalError
| IntegrityError
| FileNotFoundError (msg : string).

Inductive result (A : Type) :=
| Ok (a : A)
| Err (e : error).
Arguments Ok {A} a.
Arguments Err {A} e.

#[global] Instance result_ret : MRet result := fun A a => Ok a.
#[global] Instance result_bind : MBind result := fun A B f m =>
  match m with
  | Ok a => f a
  | Err e => Err e
  end.

Definition is_ok {A} (r : result A) : bool :=
  match r with Ok _ => true | Err _ => false end.

(** ** Python string tests *)

(** [s.lower()] on ASCII letters. *)
Definition lower_ascii (c : ascii) : ascii :=
  let n := nat_of_ascii c in
  if (65 <=? n)%nat && (n <=? 90)%nat then ascii_of_nat (n + 32) else c.

Fixpoint lower (s : string) : string :=
  match s with
  | EmptyString => EmptyString
  | String c r => String (lower_ascii c) (lower r)
  end.

(** [sub in s]. *)
Fixpoint contains (sub s : string) : bool :=
  String.prefix sub s ||
  match s with
  | EmptyString => false
  | String _ r => contains sub r
  end.

(** [s.endswith(suf)]. *)
Fixpoint endswith (suf s : string) : bool :=
  String.eqb suf s ||
  match s with
  | EmptyString => false
  | String _ r => endswith suf r
  end.

(** [x in l] for a list of names. *)
Definition mem (x : string) (l : list string) : bool :=
  existsb (String.eqb x) l.

(** ** Floating-point cells *)

Inductive float :=
| Fin (q : Q)
| PInf
| NInf
| NaN.

Inductive cell :=
| Flt (x : float)
| Str (s : string).

Coercion Flt : float >-> cell.

Definition fnum (z : Z) : float := Fin (inject_Z z).

Definition fadd (a b : float) : float :=
  match a, b with
  | NaN, _ | _, NaN => NaN
  | PInf, NInf | NInf, PInf => NaN
  | PInf, _ | _, PInf => PInf
  | NInf, _ | _, NInf => NInf
  | Fin x, Fin y => Fin (Qred (x + y))
  end.

Definition fneg (a : float) : float :=
  match a with
  | Fin x => Fin (Qred (- x))
  | PInf => NInf
  | NInf => PInf
  | NaN => NaN
  end.

Definition fsub (a b : float) : float := fadd a (fneg b).

(** Sign of a float that is not [NaN]: [Lt], [Eq] or [Gt] against zero. *)
Definition fsign (a : float) : comparison :=
  match a with
  | Fin x => (x ?= 0)%Q
  | PInf => Gt
  | NInf => Lt
  | NaN => Eq
  end.

Definition finf (s : comparison) : float :=
  match s with Gt => PInf | Lt => NInf | Eq => NaN end.

Definition fmul (a b : float) : float :=
  match a, b with
  | NaN, _ | _, NaN => NaN
  | Fin x, Fin y => Fin (Qred (x * y))
  | _, _ =>
      match fsign a, fsign b with
      | Eq, _ | _, Eq => NaN
      | Gt, Gt | Lt, Lt => PInf
      | _, _ => NInf
      end
  end.

Definition fdiv (a b : float) : float :=
  match a, b with
  | NaN, _ | _, NaN => NaN
  | Fin x, Fin y =>
      if Qeq_bool y 0 then finf (x ?= 0)%Q else Fin (Qred (x / y))
  | Fin _, _ => Fin 0
  | _, Fin y =>
      match fsign a, (y ?= 0)%Q with
      | Gt, Lt | Lt, Gt | Lt, Eq => NInf
      | _, _ => PInf
      end
  | _, _ => NaN
  end.

(** [a <= b]; every comparison with [NaN] is false. *)
Definition fle (a b : float) : bool :=
  match a, b with
  | NaN, _ | _, NaN => false
  | NInf, _ | _, PInf => true
  | PInf, _ | _, NInf => false
  | Fin x, Fin y => Qle_bool x y
  end.


(** [a == b]. *)
Definition feq (a b : float) : bool :=
  match a, b with
  | Fin x, Fin y => Qeq_bool x y
  | PInf, PInf | NInf, NInf => true
  | _, _ => false
  end.

(** Nearest integer to a rational, ties to the even neighbour. *)
Definition round_half_even (q : Q) : Z :=
  let n := Qnum q in
  let d := Zpos (Qden q) in
  let fl := (n / d)%Z in
  let r := (n mod d)%Z in
  if (2 * r <? d)%Z then fl
  else if (d <? 2 * r)%Z then (fl + 1)%Z
  else if Z.even fl then fl else (fl + 1)%Z.

(** [round(x, 2)]. *)
Definition round2 (a : float) : float :=
  match a with
  | Fin x => Fin (Qred (inject_Z (round_half_even (Qred (x * 100))) / 100))
  | _ => a
  end.

(** ** Data frames *)

Inductive dtype := DNumber | DBool | DObject.

Record column := {
  cname : string;
  cdtype : dtype;
  cvals : list cell
}.

Abbreviation DataFrame := (list column).

(** [df.columns]. *)
Definition columns (df : DataFrame) : list string := map cname df.

(** [len(df)]: a frame without columns is taken to have no rows. *)
Definition nrows (df : DataFrame) : nat :=
  match df with
  | [] => 0
  | c :: _ => length (cvals c)
  end.

(** Every column has as many cells as the frame has rows. *)
Definition rectangular (df : DataFrame) : Prop :=
  Forall (fun c => length (cvals c) = nrows df) df.

(** [df.size]. *)
Definition size (df : DataFrame) : Z :=
  (Z.of_nat (nrows df) * Z.of_nat (length df))%Z.

(** One cell of [df.isnull()]. *)
Definition isnull (c : cell) : bool :=
  match c with
  | Flt NaN => true
  | _ => false
  end.

Definition count_null (l : list cell) : Z :=
  Z.of_nat (length (filter (fun c => isnull c = true) l)).

(** [df.isnull().sum().sum()]. *)
Definition missing_count (df : DataFrame) : Z :=
  fold_right Z.add 0%Z (map (fun c => count_null (cvals c)) df).

(** [calculate_data_quality_score]. *)
Definition calculate_data_quality_score (df : DataFrame) : float :=
  let total_cells := size df in
  let missing_cells := missing_count df in
  let completeness_score :=
    fdiv (fnum (total_cells - missing_cells)) (fnum total_cells) in
  round2 (fmul completeness_score (fnum 100)).

Fixpoint find_col (name : string) (df : DataFrame) : option column :=
  match df with
  | [] => None
  | c :: rest =>
      if String.eqb (cname c) name then Some c else find_col name rest
  end.

(** [name in df.columns]. *)
Definition has_column (df : DataFrame) (name : string) : bool :=
  mem name (columns df).

(** [df[name]], which raises [KeyError] for an unknown name. *)
Definition getitem (df : DataFrame) (name : string) : result column :=
  match find_col name df with
  | Some c => Ok c
  | None => Err (KeyError name)
  end.

(** [df[name] = vals]: overwrites the column in place when the name is
    known, and appends a new last column otherwise. *)
Fixpoint setitem (df : DataFrame) (name : string) (dt : dtype)
    (vals : list cell) : DataFrame :=
  match df with
  | [] => [ {| cname := name; cdtype := dt; cvals := vals |} ]
  | c :: rest =>
      if String.eqb (cname c) name
      then {| cname := name; cdtype := dt; cvals := vals |} :: rest
      else c :: setitem rest name dt vals
  end.

Fixpoint traverse {A B} (f : A -> result B) (l : list A) : result (list B) :=
  match l with
  | [] => Ok []
  | x :: r => y ← f x; ys ← traverse f r; Ok (y :: ys)
  end.

(** [df[names]] for a list of names. *)
Definition select (df : DataFrame) (names : list string) : result DataFrame :=
  traverse (getitem df) names.

(** The cells of row [i], one per column of the frame. *)
Definition row_at (i : nat) (df : DataFrame) : list cell :=
  map (fun c => default (Flt NaN) (cvals c !! i)) df.

Definition as_float (c : cell) : result float :=
  match c with
  | Flt x => Ok x
  | Str _ => Err Unsupported
  end.

(** Element-wise operations on series. *)
Definition series_map (f : float -> float) (l : list cell)
    : result (list cell) :=
  traverse (fun c => x ← as_float c; Ok (Flt (f x))) l.

Definition series_zip (f : float -> float -> float) (a b : list cell)
    : result (list cell) :=
  traverse (fun p => x ← as_float (fst p); y ← as_float (snd p);
                     Ok (Flt (f x y))) (zip a b).

(** One row of [sum(axis=1)]: missing values are skipped. *)
Fixpoint sum_skipna (acc : float) (row : list cell) : result float :=
  match row with
  | [] => Ok acc
  | c :: r =>
      x ← as_float c;
      sum_skipna (match x with NaN => acc | _ => fadd acc x end) r
  end.

(** [sub.sum(axis=1)]. *)
Definition sum_axis1 (sub : DataFrame) : result (list cell) :=
  traverse (fun i => s ← sum_skipna (fnum 0) (row_at i sub); Ok (Flt s))
           (seq 0 (nrows sub)).

(** ** Feature engineering *)

Definition service_names : list string :=
  ["PhoneService"; "MultipleLines"; "InternetService";
   "OnlineSecurity"; "OnlineBackup"; "DeviceProtection";
   "TechSupport"; "StreamingTV"; "StreamingMovies"].

(** The test that selects [service_columns]. *)
Definition is_service_column (col : string) : bool :=
  contains "service" (lower col) || mem col service_names.

(** The columns [create_aggregated_features] sums over. *)
Definition service_columns (df : DataFrame) : list string :=
  List.filter is_service_column (columns df).

(** The bin edges [pd.cut] derives from [bins=4]. *)
Definition linspace5 (mn mx : Q) : list Q :=
  map (fun i => Qred (mn + (mx - mn) * (inject_Z i / 4))%Q) [0; 1; 2; 3; 4]%Z.

Definition cut_edges (qs : list Q) : result (list Q) :=
  match qs with
  | [] => Err ValueError
  | q0 :: rest =>
      let mn := fold_left Qmin rest q0 in
      let mx := fold_left Qmax rest q0 in
      if Qeq_bool mn mx then
        let lo := (mn - (if Qeq_bool mn 0 then 1 # 1000
                         else (1 # 1000) * Qabs mn))%Q in
        let hi := (mx + (if Qeq_bool mx 0 then 1 # 1000
                         else (1 # 1000) * Qabs mx))%Q in
        Ok (linspace5 lo hi)
      else
        match linspace5 mn mx with
        | e0 :: es => Ok (Qred (e0 - (mx - mn) * (1 # 1000))%Q :: es)
        | [] => Err ValueError
        end
  end.

Definition finite (x : float) : result Q :=
  match x with
  | Fin q => Ok q
  | _ => Err ValueError
  end.

(** [pd.cut(s, bins=4, labels=[0, 1, 2, 3]).astype(int)]: right-closed
    bins, so the code of a value is the number of edges strictly below
    it, less one.  A missing value has no bin and cannot be cast. *)
Definition cut4 (vals : list cell) : result (list cell) :=
  xs ← traverse as_float vals;
  qs ← traverse finite xs;
  edges ← cut_edges qs;
  Ok (map (fun q =>
        Flt (fnum (Z.of_nat (length
          (List.filter (fun e => negb (Qle_bool q e)) edges)) - 1))) qs).

Definition tenure_stability_code (x : float) : float :=
  if fle x (fnum 12) then fnum 0
  else if fle x (fnum 36) then fnum 1
  else if fle x (fnum 60) then fnum 2
  else fnum 3.

(** One cell of [(s == 2).astype(int)]. *)
Definition equals_two (c : cell) : cell :=
  match c with
  | Flt x => if feq x (fnum 2) then Flt (fnum 1) else Flt (fnum 0)
  | Str _ => Flt (fnum 0)
  end.

(** [create_aggregated_features]. *)
Definition create_aggregated_features (df : DataFrame) : result DataFrame :=
  let df_agg := df in
  let service_columns := service_columns df in
  df_agg ←
    match service_columns with
    | [] => Ok df_agg
    | _ :: _ =>
        sub ← select df service_columns;
        total ← sum_axis1 sub;
        let df_agg := setitem df_agg "total_services" DNumber total in
        total_services ← getitem df_agg "total_services";
        tenure ← getitem df_agg "tenure";
        tenure1 ← series_map (fun x => fadd x (fnum 1)) (cvals tenure);
        density ← series_zip fdiv (cvals total_services) tenure1;
        Ok (setitem df_agg "service_density" DNumber density)
    end;
  total_charges ← getitem df_agg "TotalCharges";
  segment ← cut4 (cvals total_charges);
  let df_agg := setitem df_agg "customer_value_segment" DNumber segment in
  tenure ← getitem df_agg "tenure";
  stability ← series_map tenure_stability_code (cvals tenure);
  let df_agg := setitem df_agg "tenure_stability" DNumber stability in
  if has_column df "PaymentMethod" then
    payment ← getitem df_agg "PaymentMethod";
    Ok (setitem df_agg "high_risk_payment" DNumber
          (map equals_two (cvals payment)))
  else Ok df_agg.

(** [create_feature_interactions]. *)
Definition create_feature_interactions (df : DataFrame) : result DataFrame :=
  let df_interact := df in
  tenure ← getitem df_interact "tenure";
  monthly ← getitem df_interact "MonthlyCharges";
  v ← series_zip fmul (cvals tenure) (cvals monthly);
  let df_interact := setitem df_interact "tenure_monthly_interaction" DNumber v in
  tenure ← getitem df_interact "tenure";
  total ← getitem df_interact "TotalCharges";
  v ← series_zip fmul (cvals tenure) (cvals total);
  let df_interact := setitem df_interact "tenure_total_interaction" DNumber v in
  df_interact ←
    (if has_column df "total_services" then
       services ← getitem df_interact "total_services";
       monthly ← getitem df_interact "MonthlyCharges";
       v ← series_zip fmul (cvals services) (cvals monthly);
       Ok (setitem df_interact "services_charges_interaction" DNumber v)
     else Ok df_interact);
  if has_column df "Contract" && has_column df "PaymentMethod" then
    contract ← getitem df_interact "Contract";
    payment ← getitem df_interact "PaymentMethod";
    v ← series_zip fmul (cvals contract) (cvals payment);
    Ok (setitem df_interact "contract_payment_interaction" DNumber v)
  else Ok df_interact.

(** *** Notions the statements about the feature engineer use *)

(** A list of column names after assigning to the names of [extra] in
    turn: a name already there keeps its place, a new one goes last. *)
Definition with_names (names extra : list string) : list string :=
  fold_left (fun acc n => if mem n acc then acc else (acc ++ [n])%list)
            extra names.

(** The derived columns [create_aggregated_features] assigns when it
    returns. *)
Definition aggregated_names (df : DataFrame) : list string :=
  ((match service_columns df with
    | [] => []
    | _ :: _ => ["total_services"; "service_density"]
    end)
   ++ ["customer_value_segment"; "tenure_stability"]
   ++ (if has_column df "PaymentMethod" then ["high_risk_payment"] else []))%list.

(** The derived columns [create_feature_interactions] assigns when it
    returns. *)
Definition interaction_names (df : DataFrame) : list string :=
  (["tenure_monthly_interaction"; "tenure_total_interaction"]
   ++ (if has_column df "total_services"
       then ["services_charges_interaction"] else [])
   ++ (if has_column df "Contract" && has_column df "PaymentMethod"
       then ["contract_payment_interaction"] else []))%list.

(** Python truth value of a cell. *)
Definition truthy (c : cell) : bool :=
  match c with
  | Flt (Fin q) => negb (Qeq_bool q 0)
  | Flt _ => true
  | Str s => negb (String.eqb s "")
  end.

(** How many cells of a row are truthy. *)
Definition truthy_count (row : list cell) : Z :=
  Z.of_nat (length (List.filter truthy row)).

(** ** The SQLite store *)

Record table := {
  t_columns : list string;
  t_pk : option string;
  t_rows : list (list cell)
}.

Record index := {
  i_table : string;
  i_columns : list string
}.

Record database := {
  db_tables : gmap string table;
  db_indexes : gmap string index
}.

Definition empty_database : database :=
  {| db_tables := ∅; db_indexes := ∅ |}.

(** [CREATE TABLE IF NOT EXISTS]. *)
Definition create_table_if_not_exists (name : string) (cols : list string)
    (pk : option string) (db : database) : database :=
  match db_tables db !! name with
  | Some _ => db
  | None =>
      {| db_tables :=
           <[name := {| t_columns := cols; t_pk := pk; t_rows := [] |}]>
             (db_tables db);
         db_indexes := db_indexes db |}
  end.

(** [CREATE INDEX IF NOT EXISTS name ON tbl(cols)]. *)
Definition create_index_if_not_exists (name tbl : string) (cols : list string)
    (db : database) : result database :=
  match db_indexes db !! name with
  | Some _ => Ok db
  | None =>
      match db_tables db !! tbl with
      | None => Err OperationalError
      | Some t =>
          if forallb (fun c => mem c (t_columns t)) cols then
            Ok {| db_tables := db_tables db;
                  db_indexes :=
                    <[name := {| i_table := tbl; i_columns := cols |}]>
                      (db_indexes db) |}
          else Err OperationalError
      end
  end.

(** [DROP TABLE IF EXISTS]: the indexes of the table go with it. *)
Definition drop_table (name : string) (db : database) : database :=
  {| db_tables := delete name (db_tables db);
     db_indexes :=
       filter (fun kv => i_table (snd kv) ≠ name) (db_indexes db) |}.

Definition customer_features_columns : list string :=
  ["customer_id"; "tenure"; "MonthlyCharges"; "TotalCharges";
   "tenure_group"; "charges_per_tenure"; "total_to_monthly_ratio";
   "avg_monthly_charges"; "gender_encoded"; "SeniorCitizen";
   "Partner_encoded"; "Dependents_encoded"; "PhoneService_encoded";
   "MultipleLines_encoded"; "InternetService_encoded";
   "OnlineSecurity_encoded"; "OnlineBackup_encoded";
   "DeviceProtection_encoded"; "TechSupport_encoded";
   "StreamingTV_encoded"; "StreamingMovies_encoded"; "Contract_encoded";
   "PaperlessBilling_encoded"; "PaymentMethod_encoded"; "Churn";
   "total_services"; "service_density"; "customer_value_segment";
   "tenure_stability"; "high_risk_payment"; "tenure_monthly_interaction";
   "tenure_total_interaction"; "services_charges_interaction";
   "contract_payment_interaction"; "created_timestamp";
   "updated_timestamp"].

Definition feature_metadata_columns : list string :=
  ["feature_name"; "feature_type"; "description";
   "transformation_applied"; "created_date"].

Definition training_sets_columns : list string :=
  ["set_id"; "set_name"; "creation_date"; "feature_count";
   "record_count"; "target_distribution"; "data_quality_score"].

(** [setup_database]. *)
Definition setup_database (db : database) : result database :=
  let db := create_table_if_not_exists "customer_features"
              customer_features_columns (Some "customer_id") db in
  let db := create_table_if_not_exists "feature_metadata"
              feature_metadata_columns (Some "feature_name") db in
  let db := create_table_if_not_exists "training_sets"
              training_sets_columns (Some "set_id") db in
  db ← create_index_if_not_exists "idx_customer_features_tenure"
         "customer_features" ["tenure"] db;
  db ← create_index_if_not_exists "idx_customer_features_churn"
         "customer_features" ["Churn"] db;
  create_index_if_not_exists "idx_customer_features_charges"
    "customer_features" ["MonthlyCharges"; "TotalCharges"] db.

(** Position of a name in a list of names. *)
Fixpoint index_of (name : string) (l : list string) : option nat :=
  match l with
  | [] => None
  | x :: r => if String.eqb x name then Some 0 else S <$> index_of name r
  end.

(** The cell a row holds in the named column of the table. *)
Definition field (cols : list string) (name : string) (row : list cell)
    : option cell :=
  i ← index_of name cols; row !! i.

(** SQL equality of two stored values; [NULL] equals nothing. *)
Definition cell_eqb (a b : cell) : bool :=
  match a, b with
  | Flt x, Flt y => feq x y
  | Str s, Str t => String.eqb s t
  | _, _ => false
  end.

(** Two rows clash when the table has a primary key and both hold the
    same value in it. *)
Definition same_key (t : table) (r1 r2 : list cell) : bool :=
  match t_pk t with
  | None => false
  | Some k =>
      match field (t_columns t) k r1, field (t_columns t) k r2 with
      | Some a, Some b => cell_eqb a b
      | _, _ => false
      end
  end.

Fixpoint assoc (name : string) (l : list (string * cell)) : option cell :=
  match l with
  | [] => None
  | (k, v) :: r => if String.eqb k name then Some v else assoc name r
  end.

(** [INSERT INTO name (cols) VALUES (vals)], or [INSERT OR REPLACE]
    when [or_replace] is set. *)
Definition sql_insert (or_replace : bool) (name : string)
    (cols : list string) (vals : list cell) (db : database)
    : result database :=
  match db_tables db !! name with
  | None => Err OperationalError
  | Some t =>
      if forallb (fun c => mem c (t_columns t)) cols then
        let row := map (fun c => default (Flt NaN) (assoc c (zip cols vals)))
                       (t_columns t) in
        let put rows :=
          Ok {| db_tables :=
                  <[name := {| t_columns := t_columns t; t_pk := t_pk t;
                               t_rows := rows |}]> (db_tables db);
                db_indexes := db_indexes db |} in
        if existsb (same_key t row) (t_rows t) then
          if or_replace then
            put (List.filter (fun r => negb (same_key t row r)) (t_rows t)
                 ++ [row])%list
          else Err IntegrityError
        else put (t_rows t ++ [row])%list
      else Err OperationalError
  end.

(** The rows of a frame, in order. *)
Definition rows_of (df : DataFrame) : list (list cell) :=
  map (fun i => row_at i df) (seq 0 (nrows df)).

(** [df.to_sql(name, conn, if_exists='replace', index=False)]: the old
    table is dropped and a new one is created from the frame alone. *)
Definition to_sql_replace (df : DataFrame) (name : string) (db : database)
    : database :=
  let db := drop_table name db in
  {| db_tables :=
       <[name := {| t_columns := columns df; t_pk := None;
                    t_rows := rows_of df |}]> (db_tables db);
     db_indexes := db_indexes db |}.

Definition infer_dtype (vals : list cell) : dtype :=
  match vals with
  | [] => DObject
  | _ => if forallb (fun c => is_ok (as_float c)) vals then DNumber
         else DObject
  end.

(** [pd.read_sql("SELECT cols FROM name", conn)]. *)
Definition read_sql_select (cols : option (list string)) (name : string)
    (db : database) : result DataFrame :=
  match db_tables db !! name with
  | None => Err OperationalError
  | Some t =>
      let wanted := match cols with
                    | Some l => l
                    | None => t_columns t
                    end in
      traverse (fun c =>
        match index_of c (t_columns t) with
        | None => Err OperationalError
        | Some i =>
            let vals := map (fun r => default (Flt NaN) (r !! i)) (t_rows t) in
            Ok {| cname := c; cdtype := infer_dtype vals; cvals := vals |}
        end) wanted
  end.

(** ** Files and the clock *)

Record file := {
  f_path : string;
  f_mtime : Z;
  f_data : DataFrame
}.

Abbreviation filesystem := (list file).

(** The clock during one call of [create_training_set]: its first
    reading under ['%Y%m%d_%H%M%S'], its second reading in ISO format,
    and the modification time the CSV written by the call gets. *)
Record instant := {
  strftime : string;
  isoformat : string;
  epoch : Z
}.

(** The clock during one call of [store_transformed_data]: the reading
    that stamps the rows, and the readings [update_feature_metadata]
    takes, one while it handles each column. *)
Record store_clock := {
  timestamp : string;
  created_date : nat -> string
}.

(** What the stage works on: the open connection and the disk. *)
Record world := {
  conn : database;
  disk : filesystem
}.

(** A path against a [glob] pattern: [*] stands for any run of
    characters inside one path component, except that it does not
    match a name that starts with a dot. *)
Fixpoint glob_match (pat : string) (start : bool) (s : string)
    {struct pat} : bool :=
  match pat with
  | EmptyString => match s with EmptyString => true | _ => false end
  | String a pat' =>
      if Ascii.eqb a "*" then
        if start && String.prefix "." s then false
        else
          (fix star (s : string) : bool :=
             glob_match pat' false s ||
             match s with
             | String c s' => if Ascii.eqb c "/" then false else star s'
             | EmptyString => false
             end) s
      else
        match s with
        | String b s' => Ascii.eqb a b && glob_match pat' (Ascii.eqb a "/") s'
        | EmptyString => false
        end
  end.

(** [glob.glob(pattern)]; the hits come in directory order, which is
    the order of the listing. *)
Definition glob (pattern : string) (fs : filesystem) : list string :=
  map f_path (List.filter (fun f => glob_match pattern true (f_path f)) fs).

Fixpoint find_file (path : string) (fs : filesystem) : option file :=
  match fs with
  | [] => None
  | f :: r => if String.eqb (f_path f) path then Some f else find_file path r
  end.

(** [os.path.getmtime]. *)
Definition getmtime (fs : filesystem) (path : string) : Z :=
  match find_file path fs with
  | Some f => f_mtime f
  | None => 0%Z
  end.

(** [pd.read_csv]. *)
Definition read_csv (path : string) (fs : filesystem) : result DataFrame :=
  match find_file path fs with
  | Some f => Ok (f_data f)
  | None => Err (FileNotFoundError path)
  end.

(** [df.to_csv(path, index=False)]. *)
Fixpoint write_file (path : string) (mtime : Z) (data : DataFrame)
    (fs : filesystem) : filesystem :=
  match fs with
  | [] => [ {| f_path := path; f_mtime := mtime; f_data := data |} ]
  | f :: r =>
      if String.eqb (f_path f) path
      then {| f_path := path; f_mtime := mtime; f_data := data |} :: r
      else f :: write_file path mtime data r
  end.

(** [max(l, key=key)] keeps the first of the largest elements. *)
Definition max_by {A} (key : A -> Z) (l : list A) : option A :=
  match l with
  | [] => None
  | x :: r =>
      Some (fold_left (fun best y => if (key best <? key y)%Z then y else best)
                      r x)
  end.

(** The file [run_transformation_pipeline_auto] settles on. *)
Definition latest_csv (fs : filesystem) : result string :=
  let patterns := ["data/cleaned/*.csv"; "data/processed/*.csv"] in
  let csv_files := flat_map (fun pattern => glob pattern fs) patterns in
  match max_by (getmtime fs) csv_files with
  | None =>
      Err (FileNotFoundError
             "No CSV files found in data/cleaned or data/processed")
  | Some latest => Ok latest
  end.

(** ** Scaling, persistence and the driver *)

Section Stage.

(** [fit_transform] of the two scalers, on the selected columns. *)
Variable standard_fit_transform :
  list (list cell) -> result (list (list cell)).
Variable minmax_fit_transform :
  list (list cell) -> result (list (list cell)).

(** [str(s.value_counts().to_dict())]. *)
Variable str_value_counts : list cell -> string.

(** [df[names] = arr]. *)
Fixpoint setitems (df : DataFrame) (names : list string)
    (arr : list (list cell)) : result DataFrame :=
  match names, arr with
  | [], [] => Ok df
  | n :: ns, a :: rest => setitems (setitem df n DNumber a) ns rest
  | _, _ => Err ValueError
  end.

(** A column [select_dtypes(include=[np.number])] keeps. *)
Definition is_number (c : column) : bool :=
  match cdtype c with
  | DNumber => true
  | _ => false
  end.

Definition scaling_excluded : list string :=
  ["Churn"; "tenure_group"; "customer_value_segment"].

Definition standard_triple : list string :=
  ["tenure"; "MonthlyCharges"; "TotalCharges"].

(** The default of [features_to_scale]. *)
Definition default_features_to_scale (df : DataFrame) : list string :=
  let numerical_features := columns (List.filter is_number df) in
  List.filter (fun col => negb (endswith "_encoded" col)
                          && negb (mem col scaling_excluded))
              numerical_features.

(** The two groups [apply_feature_scaling] splits the features into. *)
Definition standard_features (features_to_scale : list string)
    : list string :=
  List.filter (fun col => mem col features_to_scale) standard_triple.

Definition minmax_features (features_to_scale : list string)
    : list string :=
  List.filter (fun col => negb (mem col (standard_features features_to_scale)))
              features_to_scale.

Definition scale_with (fit_transform : list (list cell) ->
                                       result (list (list cell)))
    (df : DataFrame) (features : list string) : result DataFrame :=
  match features with
  | [] => Ok df
  | _ :: _ =>
      sub ← select df features;
      arr ← fit_transform (map cvals sub);
      setitems df features arr
  end.

(** [apply_feature_scaling]. *)
Definition apply_feature_scaling (df : DataFrame)
    (features_to_scale : option (list string)) : result DataFrame :=
  let df_scaled := df in
  let features_to_scale :=
    match features_to_scale with
    | None => default_features_to_scale df
    | Some l => l
    end in
  let standard_features := standard_features features_to_scale in
  df_scaled ← scale_with standard_fit_transform df_scaled standard_features;
  let minmax_features := minmax_features features_to_scale in
  scale_with minmax_fit_transform df_scaled minmax_features.

(** The type [update_feature_metadata] records for a column. *)
Definition feature_type (column : string) : string :=
  if contains "_encoded" column then "categorical" else "numerical".

Definition metadata_row (now : string) (column : string) : list cell :=
  [Str column; Str (feature_type column); Str ("Feature: " +:+ column);
   Str "StandardScaler/LabelEncoder"; Str now].

(** The loop of [update_feature_metadata], from its [i]-th round on. *)
Fixpoint upsert_metadata (now : nat -> string) (i : nat)
    (cols : list string) (db : database) : result database :=
  match cols with
  | [] => Ok db
  | column :: rest =>
      if mem column ["created_timestamp"; "updated_timestamp"]
      then upsert_metadata now (S i) rest db
      else
        db ← sql_insert true "feature_metadata" feature_metadata_columns
               (metadata_row (now i) column) db;
        upsert_metadata now (S i) rest db
  end.

(** [update_feature_metadata]. *)
Definition update_feature_metadata (now : nat -> string) (df : DataFrame)
    (db : database) : result database :=
  upsert_metadata now 0 (columns df) db.

(** [df.rename(columns={'customerID': 'customer_id'})]. *)
Definition rename_customer_id (df : DataFrame) : DataFrame :=
  map (fun c =>
         if String.eqb (cname c) "customerID"
         then {| cname := "customer_id"; cdtype := cdtype c;
                 cvals := cvals c |}
         else c) df.

(** The frame [store_transformed_data] hands to [to_sql]. *)
Definition stamped (timestamp : string) (df : DataFrame) : DataFrame :=
  let df := rename_customer_id df in
  let df :=
    match find_col "created_timestamp" df with
    | Some c => setitem df "created_timestamp" (cdtype c) (cvals c)
    | None => setitem df "created_timestamp" DObject
                (repeat (Str timestamp) (nrows df))
    end in
  setitem df "updated_timestamp" DObject (repeat (Str timestamp) (nrows df)).

(** [store_transformed_data]. *)
Definition store_transformed_data (now : store_clock) (df : DataFrame)
    (table_name : string) (db : database) : result database :=
  let df := stamped (timestamp now) df in
  let db := to_sql_replace df table_name db in
  update_feature_metadata (created_date now) df db.

(** [create_training_set]. *)
Definition create_training_set (now : instant) (set_name : string)
    (feature_columns : option (list string)) (w : world)
    : result (world * (string * string)) :=
  let wanted := match feature_columns with
                | Some (c :: l) => Some (c :: l)
                | _ => None
                end in
  df ← read_sql_select wanted "customer_features" (conn w);
  let data_quality_score := calculate_data_quality_score df in
  let target_distribution :=
    match find_col "Churn" df with
    | Some c => str_value_counts (cvals c)
    | None => "No target"
    end in
  let set_id := set_name +:+ "_" +:+ strftime now in
  db ← sql_insert false "training_sets" training_sets_columns
         [Str set_id; Str set_name; Str (isoformat now);
          Flt (fnum (Z.of_nat (length (columns df))));
          Flt (fnum (Z.of_nat (nrows df)));
          Str target_distribution; Flt data_quality_score] (conn w);
  let output_path := "data/processed/training_sets/" +:+ set_id +:+ ".csv" in
  Ok ({| conn := db;
         disk := write_file output_path (epoch now) df (disk w) |},
      (set_id, output_path)).

(** [run_transformation_pipeline]. *)
Definition run_transformation_pipeline (now_store : store_clock)
    (now_set : instant) (input_df : DataFrame) (w : world)
    : result (world * (DataFrame * string)) :=
  df ← create_aggregated_features input_df;
  df ← create_feature_interactions df;
  df ← apply_feature_scaling df None;
  db ← store_transformed_data now_store df "customer_features" (conn w);
  r ← create_training_set now_set "churn_prediction_v1" None
        {| conn := db; disk := disk w |};
  Ok (fst r, (df, snd (snd r))).

(** [run_transformation_pipeline_auto]. *)
Definition run_transformation_pipeline_auto (now_store : store_clock)
    (now_set : instant) (w : world)
    : result (world * (DataFrame * string)) :=
  latest ← latest_csv (disk w);
  df ← read_csv latest (disk w);
  run_transformation_pipeline now_store now_set df w.

End Stage.

(** ** Notions the statements use *)

Definition is_float (c : cell) : bool :=
  match c with Flt _ => true | Str _ => false end.

Definition is_finite (c : cell) : bool :=
  match c with Flt (Fin _) => true | _ => false end.

(** A column that is absent, or holds numbers only. *)
Definition numeric_if_present (df : DataFrame) (n : string) : bool :=
  match find_col n df with
  | Some c => forallb is_float (cvals c)
  | None => true
  end.

(** A column that is present, not empty, and holds finite numbers only. *)
Definition finite_nonempty (df : DataFrame) (n : string) : bool :=
  match find_col n df with
  | Some c => forallb is_finite (cvals c) && negb (Nat.eqb (length (cvals c)) 0)
  | None => false
  end.

(** [SELECT * FROM name WHERE col = key]. *)
Definition select_where (name col : string) (key : cell) (db : database)
    : list (list cell) :=
  match db_tables db !! name with
  | None => []
  | Some t =>
      List.filter (fun r => match field (t_columns t) col r with
                            | Some v => cell_eqb v key
                            | None => false
                            end) (t_rows t)
  end.

(** The metadata table with the schema [setup_database] gives it. *)
Definition metadata_table (rows : list (list cell)) : table :=
  {| t_columns := feature_metadata_columns; t_pk := Some "feature_name";
     t_rows := rows |}.

Definition metadata_ready (db : database) : Prop :=
  exists rows, db_tables db !! "feature_metadata" = Some (metadata_table rows).

(** The lineage table with the schema [setup_database] gives it. *)
Definition training_sets_ready (db : database) : Prop :=
  exists rows,
    db_tables db !! "training_sets"
    = Some {| t_columns := training_sets_columns;
              t_pk := Some "set_id"; t_rows := rows |}.

(** A row whose first cell is the text [c]. *)
Definition keyed (c : string) (r : list cell) : bool :=
  match r !! 0 with
  | Some v => cell_eqb v (Str c)
  | None => false
  end.

(** The candidates of the file discovery, in the order the driver
    collects them. *)
Definition csv_candidates (fs : filesystem) : list string :=
  (glob "data/cleaned/*.csv" fs ++ glob "data/processed/*.csv" fs)%list.

(** ** Sample inputs *)

Definition numbers (name : string) (vals : list Z) : column :=
  {| cname := name; cdtype := DNumber;
     cvals := map (fun z => Flt (fnum z)) vals |}.

Definition texts (name : string) (vals : list string) : column :=
  {| cname := name; cdtype := DObject; cvals := map Str vals |}.

(** One customer with two services and none of the optional columns. *)
Definition one_customer : DataFrame :=
  [texts "customerID" ["C1"]; numbers "tenure" [5]%Z;
   numbers "MonthlyCharges" [70]%Z; numbers "TotalCharges" [350]%Z;
   numbers "PhoneService" [1]%Z; numbers "InternetService" [1]%Z;
   texts "Churn" ["Yes"]].

(** A cleaned table that has lost its [TotalCharges] column. *)
Definition no_total_charges : DataFrame :=
  [numbers "tenure" [5; 20]%Z; numbers "MonthlyCharges" [70; 30]%Z;
   numbers "PhoneService" [1; 0]%Z].

(** Two customers whose internet service is coded 0, 1 or 2. *)
Definition coded_services : DataFrame :=
  [numbers "tenure" [1; 3]%Z; numbers "MonthlyCharges" [70; 30]%Z;
   numbers "TotalCharges" [70; 90]%Z;
   numbers "PhoneService" [1; 1]%Z; numbers "InternetService" [2; 0]%Z].



(** A frame with two columns and no rows. *)
Definition no_rows : DataFrame := [numbers "tenure" []; numbers "Churn" []].

(** Two rows for the same customer. *)
Definition repeated_customer : DataFrame :=
  [texts "customerID" ["C1"; "C1"]; numbers "tenure" [5; 6]%Z;
   numbers "Churn" [0; 1]%Z].

(** A column whose name has [_encoded] in the middle. *)
Definition interior_encoded : DataFrame :=
  [numbers "gender_encoded_flag" [0; 1]%Z; numbers "gender_encoded" [0; 1]%Z].

(** Stand-ins for the two scalers and the label summary. *)
Definition shift_by_one (cols : list (list cell)) : result (list (list cell)) :=
  traverse (series_map (fun x => fadd x (fnum 1))) cols.

Definition halve (cols : list (list cell)) : result (list (list cell)) :=
  traverse (series_map (fun x => fdiv x (fnum 2))) cols.

Definition label_summary (labels : list cell) : string :=
  if forallb (fun c => cell_eqb c (Str "Yes")) labels then "{'Yes': n}"
  else "{...}".

Definition noon : instant :=
  {| strftime := "20240101_120000";
     isoformat := "2024-01-01T12:00:00.000000";
     epoch := 1704110400%Z |}.

Definition noon_store : store_clock :=
  {| timestamp := "2024-01-01T12:00:00.000000";
     created_date := fun _ => "2024-01-01T12:00:00.000500" |}.

Definition same_second : instant :=
  {| strftime := "20240101_120000";
     isoformat := "2024-01-01T12:00:00.500000";
     epoch := 1704110400%Z |}.

(** The store right after [setup_database] on a new file. *)
Definition fresh_database : database :=
  Eval vm_compute in
    match setup_database empty_database with
    | Ok db => db
    | Err _ => empty_database
    end.

(** A disk where the processed directory holds the newer file. *)
Definition two_directories : filesystem :=
  [ {| f_path := "data/cleaned/churn.csv"; f_mtime := 100%Z;
       f_data := one_customer |};
    {| f_path := "data/processed/cleaned_data.csv"; f_mtime := 200%Z;
       f_data := coded_services |} ].

Definition fresh_world : world :=
  {| conn := fresh_database; disk := two_directories |}.

(** [one_customer] after the first step, after both feature steps, and
    after scaling. *)
Definition one_customer_aggregated : DataFrame :=
  Eval vm_compute in
    match create_aggregated_features one_customer with
    | Ok df => df
    | Err _ => []
    end.

Definition one_customer_features : DataFrame :=
  Eval vm_compute in
    match create_feature_interactions one_customer_aggregated with
    | Ok df => df
    | Err _ => []
    end.

Definition one_customer_scaled : DataFrame :=
  Eval vm_compute in
    match apply_feature_scaling shift_by_one halve one_customer_features None
    with
    | Ok df => df
    | Err _ => []
    end.

(** The world once [one_customer_scaled] is stored, and once a first
    training set was created at [noon]. *)
Definition stored_world : world :=
  Eval vm_compute in
    match store_transformed_data noon_store one_customer_scaled
            "customer_features" fresh_database with
    | Ok db => {| conn := db; disk := two_directories |}
    | Err _ => fresh_world
    end.

Definition world_after_first_set : world :=
  Eval vm_compute in
    match create_training_set label_summary noon "churn_prediction_v1" None
            stored_world with
    | Ok r => fst r
    | Err _ => fresh_world
    end.

Definition first_set_id : string := "churn_prediction_v1_20240101_120000".

Definition first_set_path : string :=
  "data/processed/training_sets/churn_prediction_v1_20240101_120000.csv".

(** * Lemmas and theorems *)

Lemma bind_ok {A B} (m : result A) (k : A -> result B) (b : B) :
  m ≫= k = Ok b -> exists a, m = Ok a /\ k a = Ok b.
Proof. destruct m as [a|e]; simpl; [eauto | discriminate]. Qed.

(** *** Rounding *)


Lemma round_half_even_bounds (q : Q) (a b : Z) :
  (a * Zpos (Qden q) <= Qnum q <= b * Zpos (Qden q))%Z ->
  (a <= round_half_even q <= b)%Z.
Proof.
  unfold round_half_even. destruct q as [n d]; simpl. intros [Ha Hb].
  assert (Hd : (0 < Zpos d)%Z) by lia.
  pose proof (Z.div_mod n (Zpos d) ltac:(lia)) as Hn.
  pose proof (Z.mod_pos_bound n (Zpos d) Hd) as Hr.
  set (fl := (n / Zpos d)%Z) in *. set (r := (n mod Zpos d)%Z) in *.
  destruct (Z.ltb_spec (2 * r) (Zpos d)); [nia|].
  destruct (Z.ltb_spec (Zpos d) (2 * r)); [nia|].
  destruct (Z.even fl); nia.
Qed.

(** ** The quality score *)

Lemma Qmake_to_pos (n t : Z) :
  (0 < t)%Z -> (n # Z.to_pos t == inject_Z n / inject_Z t)%Q.
Proof. intros Ht. rewrite Qmake_Qdiv, Z2Pos.id by lia. reflexivity. Qed.

Lemma quality_score_value (df : DataFrame) :
  (1 <= size df)%Z ->
  calculate_data_quality_score df =
  Fin (Qred (inject_Z (round_half_even
               (Qred ((10000 * (size df - missing_count df))
                      # Z.to_pos (size df)))) / 100)).
Proof.
  intros Ht. unfold calculate_data_quality_score, fnum, fdiv.
  destruct (Qeq_bool (inject_Z (size df)) 0) eqn:Hz.
  { apply Qeq_bool_iff in Hz. unfold Qeq in Hz. simpl in Hz. lia. }
  cbn [fmul round2]. do 5 f_equal. apply Qred_complete.
  rewrite !Qred_correct, Qmake_to_pos by lia.
  rewrite !inject_Z_mult.
  assert (~ inject_Z (size df) == 0)%Q by (unfold Qeq; simpl; lia).
  change (inject_Z 10000) with 10000%Q. change (inject_Z 100) with 100%Q.
  field. assumption.
Qed.

Lemma count_null_bounds (l : list cell) :
  (0 <= count_null l <= Z.of_nat (length l))%Z.
Proof.
  unfold count_null. pose proof (length_filter (fun c => isnull c = true) l). lia.
Qed.

Lemma missing_count_bounds (df : DataFrame) (n : nat) :
  Forall (fun c => length (cvals c) = n) df ->
  (0 <= missing_count df <= Z.of_nat n * Z.of_nat (length df))%Z.
Proof.
  unfold missing_count. induction 1 as [|c df Hc _ IH]; simpl; [lia|].
  pose proof (count_null_bounds (cvals c)). rewrite Hc in *. nia.
Qed.

Lemma missing_count_rectangular (df : DataFrame) :
  rectangular df -> (0 <= missing_count df <= size df)%Z.
Proof. intros H. apply (missing_count_bounds df (nrows df) H). Qed.


(** C10.  On a table without cells (no rows, or no columns) the
    unguarded division is 0/0 and [calculate_data_quality_score]
    returns NaN, which is no score; with at least one cell it returns a
    number between 0 and 100. *)
Theorem quality_score_needs_cells (df : DataFrame) :
  rectangular df ->
  (size df = 0%Z -> calculate_data_quality_score df = NaN)
  /\ ((1 <= size df)%Z ->
      exists q, calculate_data_quality_score df = Fin q
                /\ (0 <= q <= 100)%Q).
Proof.
  intros Hrect. pose proof (missing_count_rectangular df Hrect) as Hm. split.
  - intros Hz. unfold calculate_data_quality_score. rewrite Hz in *.
    replace (missing_count df) with 0%Z by lia. reflexivity.
  - intros Ht. rewrite (quality_score_value df Ht). eexists; split; [reflexivity|].
    set (q := Qred (_ # _)).
    assert (Hq : (q == (10000 * (size df - missing_count df)) # Z.to_pos (size df))%Q)
      by apply Qred_correct.
    assert (Hb : (0 <= q <= 10000)%Q).
    { rewrite Hq. unfold Qle; simpl. rewrite Z2Pos.id by lia. nia. }
    destruct (round_half_even_bounds q 0 10000) as [H0 H1].
    { destruct Hb as [Hb0 Hb1]. unfold Qle in Hb0, Hb1; simpl in Hb0, Hb1. lia. }
    rewrite Qred_correct. unfold Qle, Qdiv, Qmult, Qinv, inject_Z; simpl. lia.
Qed.



(** C10 on a frame with two columns and no rows. *)
Lemma quality_score_needs_cells_witness :
  calculate_data_quality_score no_rows = NaN.
Proof.
  apply (proj1 (quality_score_needs_cells no_rows
                  ltac:(repeat constructor))).
  reflexivity.
Defined.

(** *** Frames *)

Lemma bind_err {A B} (m : result A) (k : A -> result B) :
  is_ok m = false -> is_ok (m ≫= k) = false.
Proof. destruct m; simpl; [discriminate | reflexivity]. Qed.

Lemma mem_true (x : string) (l : list string) : mem x l = true <-> x ∈ l.
Proof.
  unfold mem. rewrite existsb_exists. split.
  - intros (y & Hy & Heq). apply String.eqb_eq in Heq as ->.
    by apply list_elem_of_In.
  - intros Hx. exists x. split; [by apply list_elem_of_In | apply String.eqb_refl].
Qed.

Lemma mem_false (x : string) (l : list string) : mem x l = false <-> x ∉ l.
Proof. rewrite <- mem_true. destruct (mem x l); split; congruence. Qed.

Lemma find_col_name (n : string) (df : DataFrame) (c : column) :
  find_col n df = Some c -> cname c = n /\ c ∈ df.
Proof.
  induction df as [|d df IH]; simpl; [discriminate|].
  destruct (String.eqb_spec (cname d) n) as [Heq|Hne].
  - intros [= <-]. split; [done | left].
  - intros H. destruct (IH H). split; [done | by right].
Qed.

Lemma find_col_none (n : string) (df : DataFrame) :
  find_col n df = None <-> has_column df n = false.
Proof.
  unfold has_column. rewrite mem_false. unfold columns.
  induction df as [|d df IH]; simpl.
  - split; [intros _; apply not_elem_of_nil | done].
  - rewrite not_elem_of_cons. destruct (String.eqb_spec (cname d) n) as [Heq|Hne].
    + split; [discriminate | intros [? _]; congruence].
    + rewrite IH. split; [intros ?; split; congruence | tauto].
Qed.

Lemma find_col_some (n : string) (df : DataFrame) :
  has_column df n = true -> exists c, find_col n df = Some c.
Proof.
  intros H. destruct (find_col n df) eqn:E; [eauto|].
  apply find_col_none in E. congruence.
Qed.

Lemma getitem_missing (df : DataFrame) (n : string) :
  has_column df n = false -> getitem df n = Err (KeyError n).
Proof. intros H. unfold getitem. by apply find_col_none in H as ->. Qed.

Lemma getitem_ok (df : DataFrame) (n : string) (c : column) :
  getitem df n = Ok c <-> find_col n df = Some c.
Proof.
  unfold getitem. destruct (find_col n df); split; congruence.
Qed.

Lemma find_col_setitem_eq (df : DataFrame) (n : string) (dt : dtype) (v : list cell) :
  find_col n (setitem df n dt v) = Some {| cname := n; cdtype := dt; cvals := v |}.
Proof.
  induction df as [|d df IH]; simpl.
  - by rewrite String.eqb_refl.
  - destruct (String.eqb_spec (cname d) n) as [Heq|Hne]; simpl.
    + by rewrite String.eqb_refl.
    + by destruct (String.eqb_spec (cname d) n).
Qed.

Lemma find_col_setitem_ne (df : DataFrame) (n m : string) (dt : dtype) (v : list cell) :
  n <> m -> find_col m (setitem df n dt v) = find_col m df.
Proof.
  intros Hne. induction df as [|d df IH]; simpl.
  - by destruct (String.eqb_spec n m).
  - destruct (String.eqb_spec (cname d) n) as [Heq|Hdn]; simpl.
    + destruct (String.eqb_spec n m); [done|].
      destruct (String.eqb_spec (cname d) m); [congruence | done].
    + by rewrite IH.
Qed.

Lemma has_column_setitem_ne (df : DataFrame) (n m : string) (dt : dtype) (v : list cell) :
  n <> m -> has_column (setitem df n dt v) m = has_column df m.
Proof.
  intros Hne. pose proof (find_col_setitem_ne df n m dt v Hne) as H.
  destruct (has_column df m) eqn:E.
  - apply find_col_some in E as [c Hc]. rewrite Hc in H.
    destruct (has_column (setitem df n dt v) m) eqn:E'; [done|].
    apply find_col_none in E'. congruence.
  - apply find_col_none in E. rewrite E in H. by apply find_col_none.
Qed.

Lemma getitem_setitem_ne (df : DataFrame) (n m : string) (dt : dtype) (v : list cell) :
  n <> m -> getitem (setitem df n dt v) m = getitem df m.
Proof. intros H. unfold getitem. by rewrite find_col_setitem_ne. Qed.

Lemma columns_setitem (df : DataFrame) (n : string) (dt : dtype) (v : list cell) :
  columns (setitem df n dt v) = with_names (columns df) [n].
Proof.
  unfold with_names, columns, mem. simpl.
  induction df as [|d df IH]; simpl; [done|].
  rewrite (String.eqb_sym n (cname d)).
  destruct (String.eqb_spec (cname d) n) as [Heq|Hne]; simpl.
  - by rewrite Heq.
  - rewrite IH. by destruct (existsb (String.eqb n) (map cname df)).
Qed.

Lemma with_names_app (l a b : list string) :
  with_names l (a ++ b) = with_names (with_names l a) b.
Proof. unfold with_names. apply fold_left_app. Qed.

Lemma with_names_nil (l : list string) : with_names l [] = l.
Proof. reflexivity. Qed.

(** *** The feature engineer *)

Ltac names_differ :=
  let Heq := fresh "Heq" in intros Heq; subst; intuition congruence.

Ltac bind_inv H :=
  let a := fresh "v" in
  let H1 := fresh "E" in
  apply bind_ok in H as (a & H1 & H).

Ltac bsimpl := cbn [mbind result_bind is_ok].

Ltac run_ok m := destruct m; [bsimpl | done].

Lemma getitem_setitem_eq (df : DataFrame) (n : string) (dt : dtype) (v : list cell) :
  getitem (setitem df n dt v) n = Ok {| cname := n; cdtype := dt; cvals := v |}.
Proof. unfold getitem. by rewrite find_col_setitem_eq. Qed.

Lemma create_aggregated_features_needs (df : DataFrame) :
  has_column df "tenure" = false \/ has_column df "TotalCharges" = false ->
  is_ok (create_aggregated_features df) = false.
Proof.
  intros Hmiss. unfold create_aggregated_features.
  destruct (service_columns df) as [|s l]; bsimpl.
  - destruct (has_column df "TotalCharges") eqn:Htc;
      [|by rewrite (getitem_missing _ _ Htc)].
    destruct Hmiss as [Ht|]; [|done].
    run_ok (getitem df "TotalCharges"). run_ok (cut4 (cvals a)).
    by rewrite getitem_setitem_ne, (getitem_missing _ _ Ht).
  - run_ok (select df (s :: l)). run_ok (sum_axis1 a).
    rewrite getitem_setitem_eq, getitem_setitem_ne by done. bsimpl.
    destruct (has_column df "tenure") eqn:Ht;
      [|by rewrite (getitem_missing _ _ Ht)].
    destruct Hmiss as [|Htc]; [done|].
    run_ok (getitem df "tenure"). run_ok (series_map (fun x => fadd x (fnum 1)) (cvals a1)).
    match goal with |- context [series_zip ?f ?x ?y] => run_ok (series_zip f x y) end.
    by rewrite !getitem_setitem_ne, (getitem_missing _ _ Htc).
Qed.

Lemma create_feature_interactions_needs (df : DataFrame) :
  has_column df "tenure" = false \/ has_column df "MonthlyCharges" = false
  \/ has_column df "TotalCharges" = false ->
  is_ok (create_feature_interactions df) = false.
Proof.
  intros Hmiss. unfold create_feature_interactions.
  destruct (has_column df "tenure") eqn:Ht;
    [|by rewrite (getitem_missing _ _ Ht)].
  run_ok (getitem df "tenure").
  destruct (has_column df "MonthlyCharges") eqn:Hm;
    [|by rewrite (getitem_missing _ _ Hm)].
  run_ok (getitem df "MonthlyCharges").
  match goal with |- context [series_zip ?f ?x ?y] => run_ok (series_zip f x y) end.
  rewrite !getitem_setitem_ne by done.
  run_ok (getitem df "tenure").
  destruct Hmiss as [|[|Htc]]; [done | done |].
  by rewrite (getitem_missing _ _ Htc).
Qed.

Lemma create_aggregated_features_shape (df out : DataFrame) :
  create_aggregated_features df = Ok out ->
  columns out = with_names (columns df) (aggregated_names df)
  /\ forall n, n ∉ aggregated_names df -> find_col n out = find_col n df.
Proof.
  unfold create_aggregated_features, aggregated_names. intros H.
  bind_inv H. bind_inv H. bind_inv H. bind_inv H. bind_inv H.
  assert (Hv : columns v = with_names (columns df)
                 match service_columns df with
                 | [] => []
                 | _ :: _ => ["total_services"; "service_density"]
                 end
               /\ forall n, n ∉ match service_columns df with
                              | [] => []
                              | _ :: _ => ["total_services"; "service_density"]
                              end -> find_col n v = find_col n df).
  { destruct (service_columns df) as [|s l].
    - injection E as <-. done.
    - bind_inv E. bind_inv E. bind_inv E. bind_inv E. bind_inv E. bind_inv E.
      injection E as <-. split.
      + rewrite !columns_setitem. reflexivity.
      + intros n Hn. rewrite !not_elem_of_cons in Hn.
        rewrite !find_col_setitem_ne by (intros Heq; symmetry in Heq; tauto).
        done. }
  destruct Hv as [Hcols Hframe].
  destruct (has_column df "PaymentMethod").
  - bind_inv H. injection H as <-. split.
    + rewrite !columns_setitem, Hcols, !with_names_app. reflexivity.
    + intros n Hn. rewrite !elem_of_app, !elem_of_cons in Hn.
      rewrite !find_col_setitem_ne by names_differ.
      apply Hframe. tauto.
  - injection H as <-. split.
    + rewrite !columns_setitem, Hcols, !with_names_app. reflexivity.
    + intros n Hn. rewrite !elem_of_app, !elem_of_cons in Hn.
      rewrite !find_col_setitem_ne by names_differ.
      apply Hframe. tauto.
Qed.

Lemma create_feature_interactions_shape (df out : DataFrame) :
  create_feature_interactions df = Ok out ->
  columns out = with_names (columns df) (interaction_names df)
  /\ forall n, n ∉ interaction_names df -> find_col n out = find_col n df.
Proof.
  unfold create_feature_interactions, interaction_names. intros H.
  do 7 bind_inv H.
  set (base := setitem (setitem df "tenure_monthly_interaction" DNumber v1)
                 "tenure_total_interaction" DNumber v4) in *.
  assert (Hv : columns v5 = with_names (columns base)
                 (if has_column df "total_services"
                  then ["services_charges_interaction"] else [])
               /\ forall n, n ∉ (if has_column df "total_services"
                                then ["services_charges_interaction"] else [])
                            -> find_col n v5 = find_col n base).
  { destruct (has_column df "total_services").
    - do 3 bind_inv E5. injection E5 as <-. split.
      + rewrite columns_setitem. reflexivity.
      + intros n Hn. rewrite !not_elem_of_cons in Hn.
        rewrite !find_col_setitem_ne by (intros Heq; symmetry in Heq; tauto).
        done.
    - injection E5 as <-. done. }
  destruct Hv as [Hcols Hframe].
  assert (Hbase : columns base = with_names (columns df)
                    ["tenure_monthly_interaction"; "tenure_total_interaction"]).
  { unfold base. rewrite !columns_setitem. reflexivity. }
  destruct (has_column df "Contract" && has_column df "PaymentMethod").
  - do 3 bind_inv H. injection H as <-. split.
    + rewrite !columns_setitem, Hcols, Hbase, !with_names_app. reflexivity.
    + intros n Hn. rewrite !elem_of_app, !elem_of_cons in Hn.
      rewrite !find_col_setitem_ne by names_differ.
      rewrite Hframe by tauto. unfold base.
      rewrite !find_col_setitem_ne by names_differ. done.
  - injection H as <-. split.
    + rewrite Hcols, Hbase, !with_names_app. reflexivity.
    + intros n Hn. rewrite !elem_of_app, !elem_of_cons in Hn.
      rewrite Hframe by tauto. unfold base.
      rewrite !find_col_setitem_ne by names_differ. done.
Qed.


Lemma traverse_Forall2 {A B} (f : A -> result B) (l : list A) (ys : list B) :
  traverse f l = Ok ys -> Forall2 (fun x y => f x = Ok y) l ys.
Proof.
  revert ys. induction l as [|x l IH]; simpl; intros ys H.
  - injection H as <-. constructor.
  - bind_inv H. bind_inv H. injection H as <-. constructor; auto.
Qed.

Lemma traverse_total {A B} (f : A -> result B) (l : list A) :
  Forall (fun x => is_ok (f x) = true) l -> is_ok (traverse f l) = true.
Proof.
  induction 1 as [|x l Hx _ IH]; simpl; [done|].
  destruct (f x); [bsimpl | done]. destruct (traverse f l); done.
Qed.

Lemma is_ok_true {A} (r : result A) : is_ok r = true -> exists a, r = Ok a.
Proof. destruct r; [eauto | discriminate]. Qed.

Lemma select_Forall2 (df sub : DataFrame) (names : list string) :
  select df names = Ok sub ->
  Forall2 (fun n c => find_col n df = Some c) names sub.
Proof.
  intros H. apply traverse_Forall2 in H.
  eapply Forall2_impl; [exact H|]. intros n c. apply getitem_ok.
Qed.

Lemma find_col_length (df : DataFrame) (n : string) (c : column) :
  rectangular df -> find_col n df = Some c -> length (cvals c) = nrows df.
Proof.
  intros Hrect Hc. apply find_col_name in Hc as [_ Hin].
  unfold rectangular in Hrect. rewrite Forall_forall in Hrect. auto.
Qed.

Lemma select_nrows (df sub : DataFrame) (names : list string) :
  rectangular df -> names <> [] -> select df names = Ok sub ->
  nrows sub = nrows df.
Proof.
  intros Hrect Hne H. apply select_Forall2 in H.
  destruct H as [|n c names sub Hc _]; [done|].
  simpl. eapply find_col_length; eauto.
Qed.

Lemma sum_axis1_lookup (sub : DataFrame) (total : list cell) (i : nat) :
  sum_axis1 sub = Ok total -> i < nrows sub ->
  exists s, sum_skipna (fnum 0) (row_at i sub) = Ok s
            /\ total !! i = Some (Flt s).
Proof.
  intros H Hi. apply traverse_Forall2 in H.
  assert (Hs : seq 0 (nrows sub) !! i = Some i) by (by apply lookup_seq_lt).
  destruct (Forall2_lookup_l _ _ _ _ _ H Hs) as (c & Hc & Hf).
  bind_inv Hf. injection Hf as <-. eauto.
Qed.

Lemma sum_axis1_length (sub : DataFrame) (total : list cell) :
  sum_axis1 sub = Ok total -> length total = nrows sub.
Proof.
  intros H. apply traverse_Forall2, Forall2_length in H.
  by rewrite length_seq in H.
Qed.

Lemma as_float_ok (c : cell) (x : float) : as_float c = Ok x -> c = Flt x.
Proof. destruct c; simpl; congruence. Qed.

Lemma series_map_lookup (f : float -> float) (l ys : list cell) (i : nat) (c : cell) :
  series_map f l = Ok ys -> l !! i = Some c ->
  exists x, c = Flt x /\ ys !! i = Some (Flt (f x)).
Proof.
  intros H Hc. apply traverse_Forall2 in H.
  destruct (Forall2_lookup_l _ _ _ _ _ H Hc) as (y & Hy & Hf).
  bind_inv Hf. injection Hf as <-. apply as_float_ok in E. eauto.
Qed.

Lemma series_map_length (f : float -> float) (l ys : list cell) :
  series_map f l = Ok ys -> length ys = length l.
Proof. intros H. by apply traverse_Forall2, Forall2_length in H. Qed.

Lemma series_zip_lookup (f : float -> float -> float) (a b ys : list cell)
    (i : nat) (x y : float) :
  series_zip f a b = Ok ys ->
  a !! i = Some (Flt x) -> b !! i = Some (Flt y) ->
  ys !! i = Some (Flt (f x y)).
Proof.
  intros H Ha Hb. apply traverse_Forall2 in H.
  assert (Hz : zip a b !! i = Some (Flt x, Flt y)).
  { rewrite lookup_zip_with, Ha, Hb. done. }
  destruct (Forall2_lookup_l _ _ _ _ _ H Hz) as (c & Hc & Hf).
  simpl in Hf. injection Hf as <-. done.
Qed.

Lemma series_zip_length (f : float -> float -> float) (a b ys : list cell) :
  series_zip f a b = Ok ys -> length ys = min (length a) (length b).
Proof.
  intros H. apply traverse_Forall2, Forall2_length in H.
  by rewrite length_zip_with in H.
Qed.

Lemma Qred_inject_Z (z : Z) : Qred (inject_Z z) = inject_Z z.
Proof. apply Qred_identity. simpl. apply Z.gcd_1_r. Qed.

Lemma fadd_fnum (a b : Z) : fadd (fnum a) (fnum b) = fnum (a + b).
Proof.
  unfold fnum, fadd. f_equal. rewrite <- (Qred_inject_Z (a + b)).
  apply Qred_complete. by rewrite inject_Z_plus.
Qed.

Lemma sum_skipna_flags (a : Z) (row : list cell) :
  Forall (fun c => c = Flt (fnum 0) \/ c = Flt (fnum 1)) row ->
  sum_skipna (fnum a) row = Ok (fnum (a + truthy_count row)).
Proof.
  intros H. revert a. induction H as [|c row Hc _ IH]; intros a.
  - simpl. unfold truthy_count. simpl. by rewrite Z.add_0_r.
  - destruct Hc as [-> | ->]; cbn [sum_skipna as_float mbind result_bind];
      change (match fnum _ with NaN => fnum a | _ => ?t end) with t;
      rewrite fadd_fnum, IH; do 2 f_equal; unfold truthy_count; simpl; lia.
Qed.

(** C5 (amended).  On a table with at least one detected service
    column and a [tenure] column, whenever [create_aggregated_features]
    returns, [total_services] is in every row the sum of the values of
    the detected service columns (missing values skipped) and
    [service_density] is [total_services / (tenure + 1)]; the sum is
    the count of truthy service cells in the rows whose service cells
    are all 0 or 1. *)
Theorem total_services_is_row_sum (df out : DataFrame) :
  rectangular df -> service_columns df <> [] ->
  has_column df "tenure" = true ->
  create_aggregated_features df = Ok out ->
  exists sub tenure total density,
    select df (service_columns df) = Ok sub
    /\ find_col "tenure" df = Some tenure
    /\ cvals <$> find_col "total_services" out = Some total
    /\ cvals <$> find_col "service_density" out = Some density
    /\ forall i, i < nrows df ->
       exists s t,
         sum_skipna (fnum 0) (row_at i sub) = Ok s
         /\ cvals tenure !! i = Some (Flt t)
         /\ total !! i = Some (Flt s)
         /\ density !! i = Some (Flt (fdiv s (fadd t (fnum 1))))
         /\ (Forall (fun c => c = Flt (fnum 0) \/ c = Flt (fnum 1))
                    (row_at i sub) ->
             s = fnum (truthy_count (row_at i sub))).
Proof.
  intros Hrect Hsvc Hten H.
  unfold create_aggregated_features in H. bind_inv H.
  assert (Hout : forall n, n ∉ ["customer_value_segment"; "tenure_stability";
                               "high_risk_payment"] ->
                 find_col n out = find_col n v).
  { intros n Hn. rewrite !not_elem_of_cons in Hn. do 4 bind_inv H.
    destruct (has_column df "PaymentMethod").
    - bind_inv H. injection H as <-.
      rewrite !find_col_setitem_ne by (intros Heq; symmetry in Heq; tauto). done.
    - injection H as <-.
      rewrite !find_col_setitem_ne by (intros Heq; symmetry in Heq; tauto). done. }
  clear H.
  destruct (service_columns df) as [|s0 l] eqn:Hs; [done|].
  bind_inv E. rename v0 into sub. bind_inv E. rename v0 into total.
  rewrite getitem_setitem_eq, getitem_setitem_ne in E by done.
  cbn [mbind result_bind cvals] in E.
  bind_inv E. rename v0 into tenure. bind_inv E. rename v0 into tenure1.
  bind_inv E. rename v0 into density. injection E as <-.
  apply getitem_ok in E2.
  exists sub, tenure, total, density.
  split; [done|]. split; [done|].
  rewrite !Hout by (apply mem_false; reflexivity).
  rewrite find_col_setitem_ne, !find_col_setitem_eq by done.
  split; [done|]. split; [done|].
  intros i Hi.
  assert (Hsub : nrows sub = nrows df) by (eapply select_nrows; eauto).
  destruct (sum_axis1_lookup sub total i E1) as (s & Hsum & Htot); [lia|].
  pose proof (find_col_length df _ _ Hrect E2) as Hlen.
  destruct (lookup_lt_is_Some_2 (cvals tenure) i) as [c Hc]; [lia|].
  destruct (series_map_lookup _ _ _ _ _ E3 Hc) as (t & -> & Ht1).
  exists s, t. split; [done|]. split; [done|]. split; [done|].
  split; [eapply series_zip_lookup; eauto|].
  intros Hflags. pose proof (sum_skipna_flags 0 _ Hflags) as Hcount.
  rewrite Z.add_0_l in Hcount. congruence.
Qed.

(** *** When the feature engineer returns *)

Lemma series_map_total (f : float -> float) (l : list cell) :
  forallb is_float l = true -> exists ys, series_map f l = Ok ys.
Proof.
  intros H. apply is_ok_true, traverse_total.
  rewrite forallb_forall in H. apply Forall_forall. intros c Hc.
  apply list_elem_of_In, H in Hc. by destruct c.
Qed.

Lemma series_map_floats (f : float -> float) (l ys : list cell) :
  series_map f l = Ok ys -> forallb is_float ys = true.
Proof.
  intros H. apply traverse_Forall2 in H. apply forallb_forall.
  intros y Hy. apply list_elem_of_In in Hy.
  apply list_elem_of_lookup in Hy as [i Hi].
  destruct (Forall2_lookup_r _ _ _ _ _ H Hi) as (c & _ & Hf).
  bind_inv Hf. by injection Hf as <-.
Qed.

Lemma series_zip_total (f : float -> float -> float) (a b : list cell) :
  forallb is_float a = true -> forallb is_float b = true ->
  exists ys, series_zip f a b = Ok ys.
Proof.
  intros Ha Hb. apply is_ok_true, traverse_total.
  rewrite forallb_forall in Ha, Hb. apply Forall_forall. intros [x y] Hxy.
  apply elem_of_zip_l in Hxy as Hx. apply elem_of_zip_r in Hxy as Hy.
  apply list_elem_of_In, Ha in Hx. apply list_elem_of_In, Hb in Hy.
  simpl in *. by destruct x, y.
Qed.

(** C5, the amended statement on [one_customer]. *)
Lemma total_services_is_row_sum_witness :
  exists sub tenure total density,
    select one_customer (service_columns one_customer) = Ok sub
    /\ find_col "tenure" one_customer = Some tenure
    /\ cvals <$> find_col "total_services" one_customer_aggregated
       = Some total
    /\ cvals <$> find_col "service_density" one_customer_aggregated
       = Some density
    /\ forall i, i < nrows one_customer ->
       exists s t,
         sum_skipna (fnum 0) (row_at i sub) = Ok s
         /\ cvals tenure !! i = Some (Flt t)
         /\ total !! i = Some (Flt s)
         /\ density !! i = Some (Flt (fdiv s (fadd t (fnum 1))))
         /\ (Forall (fun c => c = Flt (fnum 0) \/ c = Flt (fnum 1))
                    (row_at i sub) ->
             s = fnum (truthy_count (row_at i sub))).
Proof.
  apply (total_services_is_row_sum one_customer one_customer_aggregated).
  - repeat constructor.
  - vm_compute. discriminate.
  - reflexivity.
  - vm_compute. reflexivity.
Defined.

(** C5 as stated fails: with [InternetService] coded 2, the first row
    of [coded_services] has two truthy service cells and
    [total_services] 3. *)
Lemma coded_service_counts_twice :
  exists out total,
    create_aggregated_features coded_services = Ok out
    /\ cvals <$> find_col "total_services" out = Some total
    /\ total !! 0 = Some (Flt (fnum 3))
    /\ (sub ← select coded_services (service_columns coded_services);
        Ok (truthy_count (row_at 0 sub))) = Ok 2%Z.
Proof. eexists. eexists. vm_compute. repeat split; reflexivity. Qed.

Lemma numeric_getitem (df : DataFrame) (n : string) :
  has_column df n = true -> numeric_if_present df n = true ->
  exists c, getitem df n = Ok c /\ forallb is_float (cvals c) = true.
Proof.
  intros Hn Hnum. apply find_col_some in Hn as [c Hc].
  unfold numeric_if_present in Hnum. rewrite Hc in Hnum.
  exists c. split; [by apply getitem_ok | done].
Qed.

Lemma select_total (df : DataFrame) (names : list string) :
  Forall (fun n => has_column df n = true) names ->
  exists sub, select df names = Ok sub.
Proof.
  intros H. apply is_ok_true, traverse_total.
  eapply Forall_impl; [exact H|]. intros n Hn. simpl in Hn.
  apply find_col_some in Hn as [c Hc]. apply getitem_ok in Hc. by rewrite Hc.
Qed.

Lemma service_columns_present (df : DataFrame) :
  Forall (fun n => has_column df n = true) (service_columns df).
Proof.
  apply Forall_forall. intros n Hn. apply list_elem_of_In in Hn.
  unfold service_columns in Hn. apply filter_In in Hn as [Hn _].
  apply mem_true. by apply list_elem_of_In.
Qed.

Lemma sum_skipna_total (acc : float) (row : list cell) :
  forallb is_float row = true -> exists s, sum_skipna acc row = Ok s.
Proof.
  revert acc. induction row as [|c row IH]; intros acc H; simpl; [eauto|].
  simpl in H. apply andb_true_iff in H as [Hc Hrow].
  destruct c; [|done]. bsimpl. simpl. by apply IH.
Qed.

Lemma row_at_floats (i : nat) (sub : DataFrame) :
  Forall (fun c => forallb is_float (cvals c) = true) sub ->
  forallb is_float (row_at i sub) = true.
Proof.
  intros H. unfold row_at. apply forallb_forall. intros x Hx.
  apply in_map_iff in Hx as (c & <- & Hc).
  rewrite Forall_forall in H. apply list_elem_of_In, H in Hc.
  destruct (cvals c !! i) as [y|] eqn:Hy; simpl; [|done].
  rewrite forallb_forall in Hc. apply Hc, list_elem_of_In.
  by eapply list_elem_of_lookup_2.
Qed.

Lemma sum_axis1_total (sub : DataFrame) :
  Forall (fun c => forallb is_float (cvals c) = true) sub ->
  exists total, sum_axis1 sub = Ok total /\ forallb is_float total = true.
Proof.
  intros H.
  assert (Hok : is_ok (sum_axis1 sub) = true).
  { apply traverse_total, Forall_forall. intros i _.
    destruct (sum_skipna_total (fnum 0) (row_at i sub)) as [s Hs];
      [by apply row_at_floats|]. by rewrite Hs. }
  apply is_ok_true in Hok as [total Ht]. exists total. split; [done|].
  apply traverse_Forall2 in Ht. apply forallb_forall.
  intros y Hy. apply list_elem_of_In, list_elem_of_lookup in Hy as [i Hi].
  destruct (Forall2_lookup_r _ _ _ _ _ Ht Hi) as (c & _ & Hf).
  bind_inv Hf. by injection Hf as <-.
Qed.

Lemma linspace5_cons (mn mx : Q) : exists e0 es, linspace5 mn mx = e0 :: es.
Proof. unfold linspace5. simpl. eauto. Qed.

Lemma cut_edges_total (qs : list Q) :
  qs <> [] -> exists edges, cut_edges qs = Ok edges.
Proof.
  destruct qs as [|q0 rest]; [done|]. intros _. unfold cut_edges.
  destruct (Qeq_bool _ _); [eauto|].
  destruct (linspace5_cons (fold_left Qmin rest q0) (fold_left Qmax rest q0))
    as (e0 & es & ->). eauto.
Qed.

Lemma cut4_total (vals : list cell) :
  forallb is_finite vals = true -> vals <> [] ->
  exists codes, cut4 vals = Ok codes.
Proof.
  intros Hfin Hne. unfold cut4. rewrite forallb_forall in Hfin.
  assert (H1 : exists xs, traverse as_float vals = Ok xs).
  { apply is_ok_true, traverse_total, Forall_forall. intros c Hc.
    apply list_elem_of_In, Hfin in Hc. by destruct c. }
  destruct H1 as [xs Hxs]. rewrite Hxs. bsimpl.
  pose proof (traverse_Forall2 _ _ _ Hxs) as Hf.
  assert (H2 : exists qs, traverse finite xs = Ok qs).
  { apply is_ok_true, traverse_total, Forall_forall. intros x Hx.
    apply list_elem_of_lookup in Hx as [i Hi].
    destruct (Forall2_lookup_r _ _ _ _ _ Hf Hi) as (c & Hc & Hcx).
    apply as_float_ok in Hcx as ->.
    apply list_elem_of_lookup_2, list_elem_of_In, Hfin in Hc.
    by destruct x. }
  destruct H2 as [qs Hqs]. rewrite Hqs. bsimpl.
  destruct (cut_edges_total qs) as [edges ->]; [|bsimpl; eauto].
  apply traverse_Forall2, Forall2_length in Hqs.
  apply Forall2_length in Hf. destruct vals; [done|]. destruct qs; [|done].
  simpl in *. lia.
Qed.

Lemma create_aggregated_features_returns (df : DataFrame) :
  has_column df "tenure" = true ->
  numeric_if_present df "tenure" = true ->
  finite_nonempty df "TotalCharges" = true ->
  forallb (numeric_if_present df) (service_columns df) = true ->
  is_ok (create_aggregated_features df) = true.
Proof.
  intros Hten Hnum Htc Hsvc.
  destruct (numeric_getitem df "tenure" Hten Hnum) as (tenure & Hgt & Hft).
  unfold finite_nonempty in Htc.
  destruct (find_col "TotalCharges" df) as [tc|] eqn:Hgc; [|done].
  apply andb_true_iff in Htc as [Hfin Hlen].
  assert (Hstage : exists v,
    match service_columns df with
    | [] => Ok df
    | _ :: _ =>
        sub ← select df (service_columns df);
        total ← sum_axis1 sub;
        let df_agg := setitem df "total_services" DNumber total in
        total_services ← getitem df_agg "total_services";
        tenure ← getitem df_agg "tenure";
        tenure1 ← series_map (fun x => fadd x (fnum 1)) (cvals tenure);
        density ← series_zip fdiv (cvals total_services) tenure1;
        Ok (setitem df_agg "service_density" DNumber density)
    end = Ok v
    /\ find_col "TotalCharges" v = Some tc
    /\ find_col "tenure" v = Some tenure
    /\ find_col "PaymentMethod" v = find_col "PaymentMethod" df).
  { apply getitem_ok in Hgt.
    destruct (service_columns df) as [|s0 l] eqn:Hs; [by exists df|].
    destruct (select_total df (s0 :: l)) as [sub Hsub].
    { rewrite <- Hs. apply service_columns_present. }
    rewrite Hsub. bsimpl.
    destruct (sum_axis1_total sub) as (total & -> & Htot).
    { apply select_Forall2 in Hsub. apply Forall_forall. intros c Hc.
      apply list_elem_of_lookup in Hc as [i Hi].
      destruct (Forall2_lookup_r _ _ _ _ _ Hsub Hi) as (n & Hn & Hnc).
      rewrite forallb_forall in Hsvc.
      apply list_elem_of_lookup_2, list_elem_of_In, Hsvc in Hn.
      unfold numeric_if_present in Hn. by rewrite Hnc in Hn. }
    bsimpl. cbn zeta. rewrite getitem_setitem_eq, getitem_setitem_ne by done.
    apply getitem_ok in Hgt. rewrite Hgt. bsimpl.
    destruct (series_map_total (fun x => fadd x (fnum 1)) (cvals tenure) Hft)
      as [tenure1 Ht1].
    rewrite Ht1. bsimpl. cbn [cvals].
    destruct (series_zip_total fdiv total tenure1 Htot) as [density ->];
      [by eapply series_map_floats|].
    bsimpl. eexists. split; [done|].
    rewrite !find_col_setitem_ne by done. apply getitem_ok in Hgt. done. }
  destruct Hstage as (v & Hv & Hvtc & Hvten & Hvpm).
  unfold create_aggregated_features. cbn zeta in Hv |- *. rewrite Hv. bsimpl.
  apply getitem_ok in Hvtc. rewrite Hvtc. bsimpl.
  destruct (cut4_total (cvals tc) Hfin) as [codes ->].
  { intros Hnil. rewrite Hnil in Hlen. done. }
  bsimpl. rewrite getitem_setitem_ne by done.
  apply getitem_ok in Hvten. rewrite Hvten. bsimpl.
  destruct (series_map_total tenure_stability_code (cvals tenure) Hft) as [st ->].
  bsimpl. destruct (has_column df "PaymentMethod") eqn:Hpm; [|done].
  rewrite !getitem_setitem_ne by done.
  apply find_col_some in Hpm as [pm Hpm]. rewrite <- Hvpm in Hpm.
  apply getitem_ok in Hpm. by rewrite Hpm.
Qed.

Lemma create_feature_interactions_returns (df : DataFrame) :
  has_column df "tenure" = true ->
  has_column df "MonthlyCharges" = true ->
  has_column df "TotalCharges" = true ->
  forallb (numeric_if_present df)
    ["tenure"; "MonthlyCharges"; "TotalCharges"; "total_services";
     "Contract"; "PaymentMethod"] = true ->
  is_ok (create_feature_interactions df) = true.
Proof.
  intros Hten Hmon Htot Hnum. simpl in Hnum.
  repeat (apply andb_true_iff in Hnum as [? Hnum]).
  destruct (numeric_getitem df "tenure") as (tenure & Hgt & Hft); [done..|].
  destruct (numeric_getitem df "MonthlyCharges") as (monthly & Hgm & Hfm); [done..|].
  destruct (numeric_getitem df "TotalCharges") as (total & Hgc & Hfc); [done..|].
  unfold create_feature_interactions. cbn zeta.
  rewrite Hgt, Hgm. bsimpl.
  destruct (series_zip_total fmul _ _ Hft Hfm) as [v1 ->]. bsimpl.
  rewrite !getitem_setitem_ne, Hgt, Hgc by done. bsimpl.
  destruct (series_zip_total fmul _ _ Hft Hfc) as [v2 ->]. bsimpl.
  set (base := setitem (setitem df _ _ _) _ _ _).
  assert (Hbase : forall n, n ∉ ["tenure_monthly_interaction";
                                 "tenure_total_interaction"] ->
                  getitem base n = getitem df n).
  { intros n Hn. rewrite !not_elem_of_cons in Hn. unfold base.
    rewrite !getitem_setitem_ne by (intros Heq; symmetry in Heq; tauto). done. }
  assert (Hstage : exists v,
    (if has_column df "total_services" then
       services ← getitem base "total_services";
       monthly ← getitem base "MonthlyCharges";
       v ← series_zip fmul (cvals services) (cvals monthly);
       Ok (setitem base "services_charges_interaction" DNumber v)
     else Ok base) = Ok v
    /\ forall n, n ∉ ["tenure_monthly_interaction";
                      "tenure_total_interaction";
                      "services_charges_interaction"] ->
                 getitem v n = getitem df n).
  { destruct (has_column df "total_services") eqn:Hs.
    - destruct (numeric_getitem df "total_services") as (sv & Hgs & Hfs); [done..|].
      rewrite !Hbase, Hgs, Hgm by (apply mem_false; reflexivity). bsimpl.
      destruct (series_zip_total fmul _ _ Hfs Hfm) as [v3 ->]. bsimpl.
      eexists. split; [done|]. intros n Hn. rewrite !not_elem_of_cons in Hn.
      rewrite getitem_setitem_ne by (intros Heq; symmetry in Heq; tauto).
      apply Hbase. rewrite !not_elem_of_cons. tauto.
    - exists base. split; [done|]. intros n Hn. apply Hbase.
      rewrite !not_elem_of_cons in *. tauto. }
  destruct Hstage as (v & -> & Hv). bsimpl.
  destruct (has_column df "Contract") eqn:Hc; [|done].
  destruct (has_column df "PaymentMethod") eqn:Hp; [|done]. simpl.
  destruct (numeric_getitem df "Contract") as (ct & Hgct & Hfct); [done..|].
  destruct (numeric_getitem df "PaymentMethod") as (pm & Hgpm & Hfpm); [done..|].
  rewrite !Hv, Hgct, Hgpm by (apply mem_false; reflexivity). bsimpl.
  by destruct (series_zip_total fmul _ _ Hfct Hfpm) as [v4 ->].
Qed.

(** C1 (amended).  [create_aggregated_features] and
    [create_feature_interactions] skip a derived feature only where the
    code tests for its source: [total_services] and [service_density]
    without a service column, [high_risk_payment] without
    [PaymentMethod], [services_charges_interaction] without
    [total_services], [contract_payment_interaction] without [Contract]
    or [PaymentMethod].  Without [tenure] or [TotalCharges] (and, for
    the interactions, [MonthlyCharges]) they raise.  Whenever they
    return, the output is the input with the derived columns assigned:
    every other column is as it was, in place.  They do return when the
    three mandatory columns are there and the columns they compute with
    hold numbers ([TotalCharges] finite and not empty). *)
Theorem guarded_features_are_skipped (df : DataFrame) :
  (has_column df "tenure" = false \/ has_column df "TotalCharges" = false ->
   is_ok (create_aggregated_features df) = false)
  /\ (has_column df "tenure" = false \/ has_column df "MonthlyCharges" = false
      \/ has_column df "TotalCharges" = false ->
      is_ok (create_feature_interactions df) = false)
  /\ (forall out, create_aggregated_features df = Ok out ->
      columns out = with_names (columns df) (aggregated_names df)
      /\ forall n, n ∉ aggregated_names df -> find_col n out = find_col n df)
  /\ (forall out, create_feature_interactions df = Ok out ->
      columns out = with_names (columns df) (interaction_names df)
      /\ forall n, n ∉ interaction_names df -> find_col n out = find_col n df)
  /\ (has_column df "tenure" = true ->
      numeric_if_present df "tenure" = true ->
      finite_nonempty df "TotalCharges" = true ->
      forallb (numeric_if_present df) (service_columns df) = true ->
      is_ok (create_aggregated_features df) = true)
  /\ (has_column df "tenure" = true ->
      has_column df "MonthlyCharges" = true ->
      has_column df "TotalCharges" = true ->
      forallb (numeric_if_present df)
        ["tenure"; "MonthlyCharges"; "TotalCharges"; "total_services";
         "Contract"; "PaymentMethod"] = true ->
      is_ok (create_feature_interactions df) = true).
Proof.
  split; [apply create_aggregated_features_needs|].
  split; [apply create_feature_interactions_needs|].
  split; [intros out; apply create_aggregated_features_shape|].
  split; [intros out; apply create_feature_interactions_shape|].
  split; [apply create_aggregated_features_returns
         | apply create_feature_interactions_returns].
Qed.

(** C1, the amended statement at work: [one_customer] has no
    [PaymentMethod] and no [Contract] and is transformed all the same,
    while [no_total_charges] is refused. *)
Lemma guarded_features_witness :
  is_ok (create_aggregated_features one_customer) = true
  /\ is_ok (create_feature_interactions no_total_charges) = false.
Proof.
  destruct (guarded_features_are_skipped one_customer)
    as (_ & _ & _ & _ & Hreturns & _).
  destruct (guarded_features_are_skipped no_total_charges)
    as (_ & Hneeds & _).
  split.
  - apply Hreturns; vm_compute; reflexivity.
  - apply Hneeds. right. right. vm_compute. reflexivity.
Defined.

(** C1 as stated fails: a table without [TotalCharges] is not
    transformed, both functions raise [KeyError]. *)
Lemma missing_total_charges_raises :
  has_column no_total_charges "TotalCharges" = false
  /\ create_aggregated_features no_total_charges
     = Err (KeyError "TotalCharges")
  /\ create_feature_interactions no_total_charges
     = Err (KeyError "TotalCharges").
Proof. vm_compute. repeat split; reflexivity. Qed.

(** ** Scaling *)

Lemma with_names_known (l : list string) (n : string) :
  n ∈ l -> with_names l [n] = l.
Proof. intros H. apply mem_true in H. unfold with_names. simpl. by rewrite H. Qed.

Lemma has_column_setitem (df : DataFrame) (n m : string) (dt : dtype) (v : list cell) :
  has_column df m = true -> has_column (setitem df n dt v) m = true.
Proof.
  intros H. destruct (String.eqb_spec n m) as [->|Hne].
  - unfold has_column. apply mem_true. apply list_elem_of_In.
    apply (in_map cname _ {| cname := m; cdtype := dt; cvals := v |}).
    apply list_elem_of_In.
    pose proof (find_col_setitem_eq df m dt v) as Hf.
    by apply find_col_name in Hf as [_ ?].
  - by rewrite has_column_setitem_ne.
Qed.

Lemma setitems_spec (names : list string) :
  forall (df out : DataFrame) (arr : list (list cell)),
  setitems df names arr = Ok out ->
  length arr = length names
  /\ (Forall (fun n => has_column df n = true) names -> columns out = columns df)
  /\ (forall n, n ∉ names -> find_col n out = find_col n df)
  /\ (NoDup names -> forall i n a,
        names !! i = Some n -> arr !! i = Some a ->
        find_col n out = Some {| cname := n; cdtype := DNumber; cvals := a |}).
Proof.
  induction names as [|m names IH]; intros df out arr H.
  - destruct arr; [|done]. injection H as <-. repeat split; done.
  - destruct arr as [|a0 arr]; [done|]. simpl in H.
    destruct (IH _ _ _ H) as (Hlen & Hcols & Hother & Hset).
    split; [simpl; lia|]. split; [|split].
    + intros Hall. apply Forall_cons in Hall as [Hm Hall].
      rewrite Hcols, columns_setitem.
      * apply with_names_known. by apply mem_true.
      * eapply Forall_impl; [exact Hall|]. intros n. apply has_column_setitem.
    + intros n Hn. apply not_elem_of_cons in Hn as [Hne Hn].
      rewrite Hother by done. by apply find_col_setitem_ne.
    + intros Hnd i n a Hi Ha. apply NoDup_cons in Hnd as [Hm Hnd].
      destruct i as [|i]; simpl in Hi, Ha.
      * injection Hi as ->. injection Ha as ->.
        rewrite Hother by done. apply find_col_setitem_eq.
      * eapply Hset; eauto.
Qed.

(** Membership in the default feature list. *)
Lemma default_features_to_scale_spec (df : DataFrame) (n : string) :
  n ∈ default_features_to_scale df <->
  endswith "_encoded" n = false /\ (n ∉ scaling_excluded)
  /\ exists c, c ∈ df /\ cname c = n /\ is_number c = true.
Proof.
  unfold default_features_to_scale, columns.
  rewrite list_elem_of_In, filter_In, andb_true_iff, !negb_true_iff, mem_false.
  rewrite in_map_iff. split.
  - intros ((c & Hc & Hin) & He & Hx). apply filter_In in Hin as [Hin Hnum].
    repeat split; try done. exists c. by rewrite list_elem_of_In.
  - intros (He & Hx & c & Hin & Hc & Hnum). repeat split; try done.
    exists c. split; [done|]. apply filter_In. by rewrite <- list_elem_of_In.
Qed.

Lemma columns_filter_NoDup (df : DataFrame) (p : column -> bool) :
  NoDup (columns df) -> NoDup (columns (List.filter p df)).
Proof.
  unfold columns. induction df as [|c df IH]; simpl; [done|].
  intros Hnd. apply NoDup_cons in Hnd as [Hc Hnd].
  destruct (p c); simpl; [|by apply IH].
  apply NoDup_cons. split; [|by apply IH].
  intros Hin. apply Hc. apply list_elem_of_In, in_map_iff in Hin as (d & Hd & Hin).
  apply filter_In in Hin as [Hin _].
  apply list_elem_of_In, in_map_iff. eauto.
Qed.

Lemma filter_NoDup_bool {A} (p : A -> bool) (l : list A) :
  NoDup l -> NoDup (List.filter p l).
Proof.
  induction 1 as [|x l Hx _ IH]; simpl; [constructor|].
  destruct (p x); [|done]. constructor; [|done].
  intros Hin. apply Hx. apply list_elem_of_In, filter_In in Hin as [Hin _].
  by apply list_elem_of_In.
Qed.

Lemma standard_triple_NoDup : NoDup standard_triple.
Proof. unfold standard_triple. repeat constructor; apply mem_false; reflexivity. Qed.

Lemma standard_features_spec (fs : list string) (n : string) :
  n ∈ standard_features fs <-> n ∈ standard_triple /\ n ∈ fs.
Proof.
  unfold standard_features.
  by rewrite list_elem_of_In, filter_In, mem_true, <- list_elem_of_In.
Qed.

Lemma minmax_features_spec (fs : list string) (n : string) :
  n ∈ minmax_features fs <-> n ∈ fs /\ n ∉ standard_triple.
Proof.
  unfold minmax_features.
  rewrite list_elem_of_In, filter_In, negb_true_iff, mem_false,
    standard_features_spec, <- list_elem_of_In. tauto.
Qed.

Section Scaling.

Variable standard_fit_transform :
  list (list cell) -> result (list (list cell)).
Variable minmax_fit_transform :
  list (list cell) -> result (list (list cell)).

Lemma scale_with_spec (fit : list (list cell) -> result (list (list cell)))
    (df out : DataFrame) (features : list string) :
  scale_with fit df features = Ok out ->
  features = [] /\ out = df
  \/ features <> []
     /\ exists sub arr, select df features = Ok sub
                        /\ fit (map cvals sub) = Ok arr
                        /\ setitems df features arr = Ok out.
Proof.
  unfold scale_with. destruct features as [|f l]; intros H.
  - left. by injection H as <-.
  - right. split; [done|]. bind_inv H. bind_inv H. eauto.
Qed.

(** C9.  With [features_to_scale = None], whenever
    [apply_feature_scaling] returns: the columns are the same, by name
    and order; every column whose name ends in [_encoded], and [Churn],
    [tenure_group], [customer_value_segment], are as they were; the
    standard group is those of [tenure], [MonthlyCharges],
    [TotalCharges] that are numeric columns of the table, and each of
    them holds its column of the standard scaler's output; the min-max
    group is every other numeric column that is not excluded, and each
    of them holds its column of the min-max scaler's output. *)
Theorem scaling_leaves_categorical_columns (df out : DataFrame) :
  NoDup (columns df) ->
  apply_feature_scaling standard_fit_transform minmax_fit_transform df None
    = Ok out ->
  let features := default_features_to_scale df in
  let std := standard_features features in
  let mm := minmax_features features in
  columns out = columns df
  /\ (forall n, endswith "_encoded" n = true \/ n ∈ scaling_excluded ->
                find_col n out = find_col n df)
  /\ (forall n, n ∈ std <->
        n ∈ standard_triple
        /\ exists c, c ∈ df /\ cname c = n /\ is_number c = true)
  /\ (forall n, n ∈ mm <->
        (n ∉ standard_triple) /\ endswith "_encoded" n = false
        /\ (n ∉ scaling_excluded)
        /\ exists c, c ∈ df /\ cname c = n /\ is_number c = true)
  /\ (std <> [] ->
      exists sub arr,
        select df std = Ok sub
        /\ standard_fit_transform (map cvals sub) = Ok arr
        /\ forall i n, std !! i = Some n ->
             exists a, arr !! i = Some a
               /\ find_col n out
                  = Some {| cname := n; cdtype := DNumber; cvals := a |})
  /\ (mm <> [] ->
      exists sub arr,
        select df mm = Ok sub
        /\ minmax_fit_transform (map cvals sub) = Ok arr
        /\ forall i n, mm !! i = Some n ->
             exists a, arr !! i = Some a
               /\ find_col n out
                  = Some {| cname := n; cdtype := DNumber; cvals := a |}).
Proof.
  intros Hnd H features std mm.
  unfold apply_feature_scaling in H. cbn zeta in H.
  fold features in H. fold std in H. fold mm in H.
  bind_inv H. rename v into mid.
  assert (Hfeat : forall n, n ∈ features -> has_column df n = true).
  { intros n Hn. apply default_features_to_scale_spec in Hn
      as (_ & _ & c & Hc & <- & _).
    apply mem_true, list_elem_of_In, in_map. by apply list_elem_of_In. }
  assert (Hstd_in : Forall (fun n => has_column df n = true) std).
  { apply Forall_forall. intros n Hn.
    apply standard_features_spec in Hn as [_ Hn]. auto. }
  assert (Hmm_in : Forall (fun n => has_column df n = true) mm).
  { apply Forall_forall. intros n Hn.
    apply minmax_features_spec in Hn as [Hn _]. auto. }
  assert (Hstd_nd : NoDup std).
  { apply filter_NoDup_bool, standard_triple_NoDup. }
  assert (Hmm_nd : NoDup mm).
  { apply filter_NoDup_bool, filter_NoDup_bool.
    by apply columns_filter_NoDup. }
  assert (Hdisj : forall n, n ∈ std -> n ∉ mm).
  { intros n Hs Hm. apply standard_features_spec in Hs as [Hs _].
    apply minmax_features_spec in Hm as [_ Hm]. done. }
  (* the standard step *)
  assert (Hmid : columns mid = columns df
                 /\ (forall n, n ∉ std -> find_col n mid = find_col n df)
                 /\ (std <> [] -> exists sub arr,
                       select df std = Ok sub
                       /\ standard_fit_transform (map cvals sub) = Ok arr
                       /\ forall i n, std !! i = Some n ->
                            exists a, arr !! i = Some a
                              /\ find_col n mid
                                 = Some {| cname := n; cdtype := DNumber;
                                           cvals := a |})).
  { destruct (scale_with_spec _ _ _ _ E) as [[Hs ->] | (Hs & sub & arr & Hsel & Hfit & Hset)];
      [done|].
    destruct (setitems_spec _ _ _ _ Hset) as (Hlen & Hcols & Hother & Hhit).
    split; [auto|]. split; [auto|]. intros _. exists sub, arr.
    split; [done|]. split; [done|]. intros i n Hi.
    destruct (lookup_lt_is_Some_2 arr i) as [a Ha].
    { rewrite Hlen. by eapply lookup_lt_Some. }
    exists a. split; [done|]. eauto. }
  destruct Hmid as (Hmid_cols & Hmid_other & Hmid_std).
  assert (Hout : columns out = columns mid
                 /\ (forall n, n ∉ mm -> find_col n out = find_col n mid)
                 /\ (mm <> [] -> exists sub arr,
                       select mid mm = Ok sub
                       /\ minmax_fit_transform (map cvals sub) = Ok arr
                       /\ forall i n, mm !! i = Some n ->
                            exists a, arr !! i = Some a
                              /\ find_col n out
                                 = Some {| cname := n; cdtype := DNumber;
                                           cvals := a |})).
  { destruct (scale_with_spec _ _ _ _ H) as [[Hs ->] | (Hs & sub & arr & Hsel & Hfit & Hset)];
      [done|].
    destruct (setitems_spec _ _ _ _ Hset) as (Hlen & Hcols & Hother & Hhit).
    split.
    { apply Hcols. eapply Forall_impl; [exact Hmm_in|]. intros n Hn.
      simpl in *. unfold has_column in *. by rewrite Hmid_cols. }
    split; [auto|]. intros _. exists sub, arr.
    split; [done|]. split; [done|]. intros i n Hi.
    destruct (lookup_lt_is_Some_2 arr i) as [a Ha].
    { rewrite Hlen. by eapply lookup_lt_Some. }
    exists a. split; [done|]. eauto. }
  destruct Hout as (Hout_cols & Hout_other & Hout_mm).
  split; [congruence|]. split; [|split; [|split; [|split]]].
  - intros n Hn.
    assert (Hnf : n ∉ features).
    { intros Hin. apply default_features_to_scale_spec in Hin as (He & Hx & _).
      destruct Hn; congruence. }
    rewrite Hout_other, Hmid_other; [done| |].
    + intros Hs. apply standard_features_spec in Hs as [_ ?]. done.
    + intros Hm. apply minmax_features_spec in Hm as [? _]. done.
  - intros n. unfold std. rewrite standard_features_spec.
    unfold features. rewrite default_features_to_scale_spec. split.
    + tauto.
    + intros [Ht Hc]. split; [done|]. split; [|split; [|done]].
      * unfold standard_triple in Ht. rewrite !elem_of_cons in Ht.
        destruct Ht as [->|[->|[->|Ht]]]; [done..|]. by apply elem_of_nil in Ht.
      * unfold standard_triple in Ht. rewrite !elem_of_cons in Ht.
        destruct Ht as [->|[->|[->|Ht]]];
          [apply mem_false; reflexivity..|]. by apply elem_of_nil in Ht.
  - intros n. unfold mm. rewrite minmax_features_spec.
    unfold features. rewrite default_features_to_scale_spec. tauto.
  - intros Hs. destruct (Hmid_std Hs) as (sub & arr & Hsel & Hfit & Hcells).
    exists sub, arr. split; [done|]. split; [done|]. intros i n Hi.
    destruct (Hcells i n Hi) as (a & Ha & Hf). exists a. split; [done|].
    rewrite Hout_other; [done|]. apply Hdisj. by eapply list_elem_of_lookup_2.
  - intros Hm. destruct (Hout_mm Hm) as (sub & arr & Hsel & Hfit & Hcells).
    exists sub, arr. split; [|done].
    rewrite <- Hsel. unfold select.
    assert (Hget : Forall (fun n => getitem mid n = getitem df n) mm).
    { apply Forall_forall. intros n Hn. unfold getitem.
      rewrite Hmid_other; [done|]. intros Hs. by apply Hdisj in Hs. }
    clear -Hget. induction Hget as [|n l Hn _ IH]; simpl; [done|].
    by rewrite Hn, IH.
Qed.

Lemma setitems_total (names : list string) :
  forall (df : DataFrame) (arr : list (list cell)),
  length arr = length names -> exists out, setitems df names arr = Ok out.
Proof.
  induction names as [|n names IH]; intros df [|a arr] Hlen; try done.
  - by exists df.
  - simpl. apply IH. simpl in Hlen. lia.
Qed.

Lemma scale_with_total (fit : list (list cell) -> result (list (list cell)))
    (df : DataFrame) (features : list string) :
  Forall (fun n => has_column df n = true) features ->
  (forall m, exists m', fit m = Ok m' /\ length m' = length m) ->
  exists out, scale_with fit df features = Ok out
              /\ columns out = columns df.
Proof.
  intros Hin Hfit. unfold scale_with.
  destruct features as [|f l] eqn:Hf; [by exists df|]. rewrite <- Hf in *.
  destruct (select_total df features Hin) as [sub Hsub].
  rewrite Hsub. bsimpl.
  destruct (Hfit (map cvals sub)) as (arr & Harr & Hlen).
  rewrite Harr. bsimpl.
  destruct (setitems_total features df arr) as [out Hout].
  { rewrite Hlen, length_map.
    apply traverse_Forall2, Forall2_length in Hsub. done. }
  exists out. split; [done|].
  by destruct (setitems_spec _ _ _ _ Hout) as (_ & Hcols & _); apply Hcols.
Qed.

(** With scalers that accept every input and keep its number of
    columns, the default call always returns. *)
Lemma apply_feature_scaling_returns (df : DataFrame) :
  (forall m, exists m',
     standard_fit_transform m = Ok m' /\ length m' = length m) ->
  (forall m, exists m',
     minmax_fit_transform m = Ok m' /\ length m' = length m) ->
  exists out,
    apply_feature_scaling standard_fit_transform minmax_fit_transform df None
    = Ok out.
Proof.
  intros Hstd Hmm. unfold apply_feature_scaling. cbn zeta.
  set (features := default_features_to_scale df).
  assert (Hfeat : forall n, n ∈ features -> has_column df n = true).
  { intros n Hn. apply default_features_to_scale_spec in Hn
      as (_ & _ & c & Hc & <- & _).
    apply mem_true, list_elem_of_In, in_map. by apply list_elem_of_In. }
  destruct (scale_with_total standard_fit_transform df
              (standard_features features)) as (mid & Hmid & Hcols);
    [|done|].
  { apply Forall_forall. intros n Hn.
    apply standard_features_spec in Hn as [_ Hn]. auto. }
  rewrite Hmid. bsimpl.
  destruct (scale_with_total minmax_fit_transform mid
              (minmax_features features)) as (out & Hout & _);
    [|done|by exists out].
  apply Forall_forall. intros n Hn.
  apply minmax_features_spec in Hn as [Hn _].
  unfold has_column. rewrite Hcols. by apply Hfeat.
Qed.

End Scaling.

(** C9 on [one_customer_features], with stand-ins for the scalers. *)
Lemma scaling_witness :
  columns one_customer_scaled = columns one_customer_features
  /\ find_col "Churn" one_customer_scaled
     = find_col "Churn" one_customer_features
  /\ find_col "customer_value_segment" one_customer_scaled
     = find_col "customer_value_segment" one_customer_features.
Proof.
  destruct (scaling_leaves_categorical_columns shift_by_one halve
              one_customer_features one_customer_scaled)
    as (Hcols & Hkeep & _).
  - repeat (constructor; [apply mem_false; reflexivity|]). constructor.
  - vm_compute. reflexivity.
  - split; [exact Hcols|].
    split; apply Hkeep; right; apply mem_true; reflexivity.
Defined.

(** ** The store *)

(** *** Strings *)

Lemma append_cons (c : ascii) (a b : string) :
  String c a +:+ b = String c (a +:+ b).
Proof. reflexivity. Qed.

Lemma append_nil (b : string) : "" +:+ b = b.
Proof. reflexivity. Qed.

Lemma prefix_spec (a s : string) :
  String.prefix a s = true <-> exists b, s = a +:+ b.
Proof.
  revert s. induction a as [|c a IH]; intros s.
  - split; [intros _; exists s; reflexivity | intros _; by destruct s].
  - destruct s as [|d s]; simpl.
    + split; [done | intros [b Hb]; by rewrite append_cons in Hb].
    + destruct (Ascii.ascii_dec c d) as [->|Hne].
      * rewrite IH. split; intros [b Hb]; exists b; rewrite append_cons in *;
          congruence.
      * split; [done | intros [b Hb]; rewrite append_cons in Hb; congruence].
Qed.

Lemma contains_spec (sub s : string) :
  contains sub s = true <-> exists pre post, s = pre +:+ sub +:+ post.
Proof.
  induction s as [|c s IH].
  - cbn [contains]. rewrite orb_false_r, prefix_spec. split.
    + intros [b Hb]. by exists "", b.
    + intros (pre & post & H). destruct pre; [by exists post|].
      by rewrite append_cons in H.
  - cbn [contains]. rewrite orb_true_iff, prefix_spec, IH. split.
    + intros [[b Hb] | (pre & post & H)].
      * by exists "", b.
      * exists (String c pre), post. by rewrite append_cons, H.
    + intros (pre & post & H). destruct pre as [|d pre].
      * left. by exists post.
      * right. exists pre, post. rewrite append_cons in H. congruence.
Qed.

Lemma endswith_spec (suf s : string) :
  endswith suf s = true <-> exists pre, s = pre +:+ suf.
Proof.
  induction s as [|c s IH].
  - cbn [endswith]. rewrite orb_false_r, String.eqb_eq. split.
    + intros ->. by exists "".
    + intros [pre H]. destruct pre; [done|]. by rewrite append_cons in H.
  - cbn [endswith]. rewrite orb_true_iff, String.eqb_eq, IH. split.
    + intros [-> | [pre H]]; [by exists "" | exists (String c pre)].
      by rewrite append_cons, H.
    + intros [pre H]. destruct pre as [|d pre]; [by left|].
      right. exists pre. rewrite append_cons in H. congruence.
Qed.

(** *** Inserts *)

Lemma filter_none {A} (p : A -> bool) (l : list A) :
  existsb p l = false -> List.filter (fun x => negb (p x)) l = l.
Proof.
  induction l as [|x l IH]; simpl; [done|].
  intros H. apply orb_false_iff in H as [-> H]. simpl. by rewrite IH.
Qed.

Lemma sql_insert_spec (or_replace : bool) (name : string)
    (cols : list string) (vals : list cell) (db db' : database) :
  sql_insert or_replace name cols vals db = Ok db' ->
  exists t,
    db_tables db !! name = Some t
    /\ let row := map (fun c => default (Flt NaN) (assoc c (zip cols vals)))
                      (t_columns t) in
       db' = {| db_tables :=
                  <[name := {| t_columns := t_columns t; t_pk := t_pk t;
                               t_rows := List.filter
                                           (fun r => negb (same_key t row r))
                                           (t_rows t) ++ [row] |}]>
                    (db_tables db);
                db_indexes := db_indexes db |}
       /\ (or_replace = false -> existsb (same_key t row) (t_rows t) = false).
Proof.
  unfold sql_insert. destruct (db_tables db !! name) as [t|]; [|done].
  destruct (forallb _ cols); [|done]. intros H. exists t. split; [done|].
  cbn zeta.
  destruct (existsb _ (t_rows t)) eqn:Hex.
  - destruct or_replace; [|done]. injection H as <-. done.
  - injection H as <-. by rewrite filter_none.
Qed.

Lemma sql_insert_other (or_replace : bool) (name : string)
    (cols : list string) (vals : list cell) (db db' : database) :
  sql_insert or_replace name cols vals db = Ok db' ->
  db_indexes db' = db_indexes db
  /\ forall m, m <> name -> db_tables db' !! m = db_tables db !! m.
Proof.
  intros H. apply sql_insert_spec in H as (t & Ht & -> & _).
  split; [done|]. intros m Hm. simpl. by rewrite lookup_insert_ne.
Qed.

(** *** The metadata catalogue *)

Lemma keyed_unique (c d : string) (r : list cell) :
  keyed c r = true -> keyed d r = true -> c = d.
Proof.
  unfold keyed. destruct (r !! 0) as [[x|s]|]; simpl; try done.
  rewrite !String.eqb_eq. congruence.
Qed.

Lemma filter_keyed (c col : string) (rows : list (list cell)) :
  List.filter (keyed c) (List.filter (fun r => negb (keyed col r)) rows)
  = if String.eqb c col then [] else List.filter (keyed c) rows.
Proof.
  induction rows as [|r rows IH]; simpl; [by destruct (String.eqb c col)|].
  destruct (keyed col r) eqn:Hcol; simpl.
  - rewrite IH. destruct (String.eqb_spec c col) as [->|Hne]; [done|].
    destruct (keyed c r) eqn:Hc; [|done].
    by pose proof (keyed_unique _ _ _ Hc Hcol).
  - rewrite IH. destruct (String.eqb_spec c col) as [->|Hne].
    + by rewrite Hcol.
    + done.
Qed.

Lemma same_key_metadata (now : string) (rows : list (list cell))
    (col : string) (r : list cell) :
  same_key (metadata_table rows) (metadata_row now col) r = keyed col r.
Proof.
  unfold same_key, field, keyed. simpl.
  destruct (r !! 0) as [[x|s]|]; simpl; try done. apply String.eqb_sym.
Qed.

Lemma select_where_metadata (db : database) (rows : list (list cell))
    (c : string) :
  db_tables db !! "feature_metadata" = Some (metadata_table rows) ->
  select_where "feature_metadata" "feature_name" (Str c) db
  = List.filter (keyed c) rows.
Proof. intros H. unfold select_where. rewrite H. reflexivity. Qed.

Lemma upsert_one (now : string) (db : database) (col : string) :
  metadata_ready db ->
  exists db',
    sql_insert true "feature_metadata" feature_metadata_columns
      (metadata_row now col) db = Ok db'
    /\ metadata_ready db'
    /\ db_indexes db' = db_indexes db
    /\ (forall m, m <> "feature_metadata" ->
                  db_tables db' !! m = db_tables db !! m)
    /\ forall c,
         select_where "feature_metadata" "feature_name" (Str c) db'
         = if String.eqb c col then [metadata_row now col]
           else select_where "feature_metadata" "feature_name" (Str c) db.
Proof.
  intros [rows Hrows].
  assert (Hok : exists db', sql_insert true "feature_metadata"
             feature_metadata_columns (metadata_row now col) db = Ok db').
  { unfold sql_insert. rewrite Hrows. cbn [t_columns forallb].
    change (forallb _ feature_metadata_columns) with true. cbn iota.
    destruct (existsb _ _); eauto. }
  destruct Hok as [db' Hdb']. exists db'. split; [done|].
  destruct (sql_insert_other _ _ _ _ _ _ Hdb') as [Hidx Hother].
  apply sql_insert_spec in Hdb' as (t & Ht & Heq & _).
  rewrite Hrows in Ht. injection Ht as <-. unfold metadata_table in Heq.
  cbn [t_columns t_pk t_rows] in Heq.
  change (map _ feature_metadata_columns) with (metadata_row now col) in Heq.
  assert (Hnew : db_tables db' !! "feature_metadata"
                 = Some (metadata_table
                     (List.filter (fun r => negb (keyed col r)) rows
                      ++ [metadata_row now col]))).
  { rewrite Heq. simpl. rewrite lookup_insert_eq. unfold metadata_table.
    do 2 f_equal. f_equal. apply List.filter_ext. intros r.
    f_equal. exact (same_key_metadata now rows col r). }
  split; [eexists; exact Hnew|]. split; [done|]. split; [done|].
  intros c.
  rewrite (select_where_metadata _ _ _ Hnew), List.filter_app, filter_keyed.
  rewrite (select_where_metadata _ _ _ Hrows).
  cbn [List.filter].
  change (keyed c (metadata_row now col)) with (String.eqb col c).
  rewrite (String.eqb_sym col c).
  destruct (String.eqb c col); [done | by rewrite app_nil_r].
Qed.

(** The catalogue after the loop: one row for each column it handled,
    the other names as before. *)
Lemma upsert_metadata_spec (now : nat -> string) (cols : list string) :
  forall i db, metadata_ready db ->
  exists db',
    upsert_metadata now i cols db = Ok db'
    /\ metadata_ready db'
    /\ db_indexes db' = db_indexes db
    /\ (forall m, m <> "feature_metadata" ->
                  db_tables db' !! m = db_tables db !! m)
    /\ forall c,
         if mem c cols
            && negb (mem c ["created_timestamp"; "updated_timestamp"])
         then exists t,
                select_where "feature_metadata" "feature_name" (Str c) db'
                = [metadata_row t c]
         else select_where "feature_metadata" "feature_name" (Str c) db'
              = select_where "feature_metadata" "feature_name" (Str c) db.
Proof.
  induction cols as [|col cols IH]; intros i db Hready.
  - exists db. simpl. repeat split; done.
  - cbn [upsert_metadata].
    destruct (mem col ["created_timestamp"; "updated_timestamp"]) eqn:Hts.
    + destruct (IH (S i) db Hready) as (db' & Hrun & Hr & Hi & Ho & Hsel).
      exists db'. repeat split; try done. intros c. specialize (Hsel c).
      unfold mem at 1. cbn [existsb]. fold (mem c cols).
      destruct (String.eqb_spec c col) as [->|Hne]; [|done].
      rewrite Hts in *. cbn [negb orb] in *. by rewrite andb_false_r in *.
    + destruct (upsert_one (now i) db col Hready)
        as (db1 & Hins & Hr1 & Hi1 & Ho1 & Hsel1).
      rewrite Hins. cbn [mbind result_bind].
      destruct (IH (S i) db1 Hr1) as (db' & Hrun & Hr & Hi & Ho & Hsel).
      exists db'. split; [done|]. split; [done|]. split; [congruence|].
      split; [intros m Hm; rewrite Ho, Ho1; done|].
      intros c. specialize (Hsel c). rewrite Hsel1 in Hsel.
      unfold mem at 1. cbn [existsb]. fold (mem c cols).
      destruct (String.eqb_spec c col) as [Heq|Hne]; [|done].
      rewrite Heq in *. rewrite Hts in *. cbn [negb orb andb] in *.
      destruct (mem col cols); cbn [andb] in Hsel; [done | eauto].
Qed.

(** C6 (amended).  For every column of the frame except the two
    timestamp columns, [update_feature_metadata] leaves exactly one
    catalogue row for the column, and its [feature_type] is
    [categorical] if and only if [_encoded] occurs somewhere in the
    name, [numerical] otherwise. *)
Theorem metadata_type_follows_substring (now : nat -> string)
    (df : DataFrame) (db : database) (column : string) :
  metadata_ready db ->
  column ∈ columns df ->
  column ∉ ["created_timestamp"; "updated_timestamp"] ->
  exists db' t,
    update_feature_metadata now df db = Ok db'
    /\ select_where "feature_metadata" "feature_name" (Str column) db'
       = [metadata_row t column]
    /\ field feature_metadata_columns "feature_type" (metadata_row t column)
       = Some (Str (feature_type column))
    /\ (feature_type column = "categorical"
        <-> exists pre post, column = pre +:+ "_encoded" +:+ post)
    /\ (feature_type column = "numerical"
        <-> ~ exists pre post, column = pre +:+ "_encoded" +:+ post).
Proof.
  intros Hready Hin Hts.
  destruct (upsert_metadata_spec now (columns df) 0 db Hready)
    as (db' & Hrun & _ & _ & _ & Hsel).
  specialize (Hsel column). apply mem_true in Hin. apply mem_false in Hts.
  rewrite Hin, Hts in Hsel. destruct Hsel as [t Ht].
  exists db', t. split; [done|]. split; [done|].
  split; [done|]. rewrite <- contains_spec. unfold feature_type.
  destruct (contains "_encoded" column); split; (done || congruence || tauto).
Qed.

(** C6, the amended statement on the column [gender_encoded]. *)
Lemma metadata_type_witness :
  exists db' t,
    update_feature_metadata (created_date noon_store) interior_encoded
      fresh_database = Ok db'
    /\ select_where "feature_metadata" "feature_name"
         (Str "gender_encoded") db'
       = [metadata_row t "gender_encoded"].
Proof.
  destruct (metadata_type_follows_substring (created_date noon_store)
              interior_encoded fresh_database "gender_encoded")
    as (db' & t & Hrun & Hsel & _).
  - exists []. vm_compute. reflexivity.
  - apply mem_true. reflexivity.
  - apply mem_false. reflexivity.
  - exists db', t. split; assumption.
Defined.

(** C6 as stated fails: [gender_encoded_flag] does not end in
    [_encoded], and its catalogue row says categorical. *)
Lemma interior_encoded_is_categorical :
  endswith "_encoded" "gender_encoded_flag" = false
  /\ (db ← update_feature_metadata (created_date noon_store)
            interior_encoded fresh_database;
      Ok (select_where "feature_metadata" "feature_name"
            (Str "gender_encoded_flag") db))
     = Ok [[Str "gender_encoded_flag"; Str "categorical";
            Str "Feature: gender_encoded_flag";
            Str "StandardScaler/LabelEncoder";
            Str "2024-01-01T12:00:00.000500"]].
Proof. vm_compute. split; reflexivity. Qed.

(** *** The feature table *)

Lemma upsert_metadata_other (now : nat -> string) (cols : list string) :
  forall i db db', upsert_metadata now i cols db = Ok db' ->
  db_indexes db' = db_indexes db
  /\ forall m, m <> "feature_metadata" ->
               db_tables db' !! m = db_tables db !! m.
Proof.
  induction cols as [|col cols IH]; intros i db db' H;
    cbn [upsert_metadata] in H.
  - by injection H as <-.
  - destruct (mem col _); [by eapply IH|].
    bind_inv H. destruct (sql_insert_other _ _ _ _ _ _ E) as [Hi Ho].
    destruct (IH _ _ _ H) as [Hi' Ho']. split; [congruence|].
    intros m Hm. by rewrite Ho', Ho.
Qed.

Lemma store_transformed_data_spec (now : store_clock) (df : DataFrame)
    (name : string) (db db' : database) :
  store_transformed_data now df name db = Ok db' ->
  name <> "feature_metadata" ->
  db_tables db' !! name
  = Some {| t_columns := columns (stamped (timestamp now) df); t_pk := None;
            t_rows := rows_of (stamped (timestamp now) df) |}
  /\ db_indexes db'
     = filter (fun kv => i_table (snd kv) ≠ name) (db_indexes db)
  /\ forall m, m <> name -> m <> "feature_metadata" ->
               db_tables db' !! m = db_tables db !! m.
Proof.
  unfold store_transformed_data, update_feature_metadata. cbn zeta.
  intros H Hname. apply upsert_metadata_other in H as [Hi Ho].
  rewrite Hi, Ho by done. unfold to_sql_replace, drop_table. simpl.
  rewrite lookup_insert_eq. repeat split; try done.
  intros m Hm Hm'. rewrite Ho by done. simpl.
  by rewrite lookup_insert_ne, lookup_delete_ne.
Qed.

Lemma store_drops_indexes (now : store_clock) (df : DataFrame)
    (db db' : database) (i : string) (ix : index) :
  store_transformed_data now df "customer_features" db = Ok db' ->
  db_indexes db' !! i = Some ix -> i_table ix <> "customer_features".
Proof.
  intros H Hi. apply store_transformed_data_spec in H as (_ & Hidx & _); [|done].
  rewrite Hidx in Hi. by apply map_lookup_filter_Some in Hi as [_ ?].
Qed.

(** *** The lineage table *)

Lemma read_sql_select_ext (cols : option (list string)) (name : string)
    (db1 db2 : database) :
  db_tables db1 !! name = db_tables db2 !! name ->
  read_sql_select cols name db1 = read_sql_select cols name db2.
Proof. intros H. unfold read_sql_select. by rewrite H. Qed.

Section Lineage.

Variable str_value_counts : list cell -> string.

(** C4 (amended).  [set_id] is the primary key of [training_sets]:
    once [create_training_set] has returned, a second call with the
    same name within the same second, so with the same [set_id], raises
    [IntegrityError] at the insert and creates nothing. *)
Theorem repeated_set_id_is_rejected (now now' : instant)
    (set_name : string) (feature_columns : option (list string))
    (w w' : world) (r : string * string) :
  training_sets_ready (conn w) ->
  create_training_set str_value_counts now set_name feature_columns w
    = Ok (w', r) ->
  strftime now' = strftime now ->
  create_training_set str_value_counts now' set_name feature_columns w'
    = Err IntegrityError.
Proof.
  intros [rows Hrows] H Hsame. unfold create_training_set in *.
  cbn zeta in *. bind_inv H. rename v into df. bind_inv H. rename v into db1.
  injection H as <- <-. cbn [conn].
  destruct (sql_insert_other _ _ _ _ _ _ E0) as [_ Hother].
  rewrite (read_sql_select_ext _ _ db1 (conn w)) by (by apply Hother).
  rewrite E. bsimpl.
  apply sql_insert_spec in E0 as (t & Ht & Hdb1 & _).
  rewrite Hrows in Ht. injection Ht as <-.
  cbn [t_columns t_pk t_rows] in Hdb1.
  unfold sql_insert. rewrite Hdb1. cbn [db_tables].
  rewrite lookup_insert_eq. cbn [t_columns t_pk t_rows].
  change (forallb _ training_sets_columns) with true. cbn iota.
  rewrite existsb_app. rewrite Hsame.
  match goal with
  | |- context [existsb ?p [?row]] =>
      replace (existsb p [row]) with true
  end.
  - by rewrite orb_true_r.
  - cbn [existsb]. unfold same_key, field. simpl.
    by rewrite String.eqb_refl.
Qed.

End Lineage.

(** *** File discovery *)

Lemma fold_best_spec {A} (key : A -> Z) (r : list A) (x : A) :
  let step := fun best y => if (key best <? key y)%Z then y else best in
  exists pre post,
    x :: r = (pre ++ fold_left step r x :: post)%list
    /\ Forall (fun y => (key y < key (fold_left step r x))%Z) pre
    /\ Forall (fun y => (key y <= key (fold_left step r x))%Z) post.
Proof.
  intros step. induction r as [|y r IH] using rev_ind.
  - exists [], []. simpl. repeat split; constructor.
  - destruct IH as (pre & post & Heq & Hpre & Hpost).
    rewrite fold_left_app. cbn [fold_left]. set (b := fold_left step r x) in *.
    assert (Hstep : step b y = if (key b <? key y)%Z then y else b) by done.
    rewrite Hstep. clear Hstep.
    destruct (Z.ltb_spec (key b) (key y)) as [Hlt|Hge].
    + exists (x :: r), []. split; [by rewrite app_comm_cons|].
      split; [|constructor]. rewrite Heq. apply Forall_app. split.
      * eapply Forall_impl; [exact Hpre|]. simpl. lia.
      * constructor; [lia|]. eapply Forall_impl; [exact Hpost|]. simpl. lia.
    + exists pre, (post ++ [y])%list. split.
      * rewrite app_comm_cons, Heq, <- app_assoc. reflexivity.
      * split; [done|]. apply Forall_app. split; [done|].
        constructor; [lia | constructor].
Qed.

Lemma max_by_spec {A} (key : A -> Z) (l : list A) (x : A) :
  max_by key l = Some x ->
  exists pre post,
    l = (pre ++ x :: post)%list
    /\ Forall (fun y => (key y < key x)%Z) pre
    /\ Forall (fun y => (key y <= key x)%Z) post.
Proof.
  unfold max_by. destruct l as [|a l]; [done|]. intros [= <-].
  apply fold_best_spec.
Qed.

Lemma max_by_none {A} (key : A -> Z) (l : list A) :
  max_by key l = None <-> l = [].
Proof. unfold max_by. by destruct l. Qed.

Lemma cleaned_is_not_processed (p : string) :
  glob_match "data/cleaned/*.csv" true p = true ->
  glob_match "data/processed/*.csv" true p = false.
Proof.
  intros H.
  do 5 (destruct p as [|? p]; [discriminate H|];
        cbn [glob_match] in H; simpl (Ascii.eqb _ "*") in H; cbn iota in H;
        apply andb_true_iff in H as [Hc H]; apply Ascii.eqb_eq in Hc as <-;
        simpl (Ascii.eqb _ "/") in H).
  destruct p as [|c p]; [discriminate H|].
  cbn [glob_match] in H. simpl (Ascii.eqb _ "*") in H. cbn iota in H.
  apply andb_true_iff in H as [Hc _]. apply Ascii.eqb_eq in Hc as <-.
  reflexivity.
Qed.

Lemma glob_hit (pattern : string) (fs : filesystem) (p : string) :
  p ∈ glob pattern fs -> glob_match pattern true p = true.
Proof.
  unfold glob. rewrite list_elem_of_In, in_map_iff.
  intros (f & <- & Hf). by apply filter_In in Hf as [_ ?].
Qed.

Lemma prefix_split {A} (l1 l2 pre post : list A) (x : A) :
  (l1 ++ l2 = pre ++ x :: post)%list -> x ∉ l1 ->
  exists k, (pre = l1 ++ k)%list.
Proof.
  revert pre. induction l1 as [|a l1 IH]; intros pre H Hx; [by exists pre|].
  destruct pre as [|b pre]; simpl in H.
  - injection H as -> _. exfalso. apply Hx. left.
  - injection H as -> H. destruct (IH pre H) as [k ->].
    + intros Hin. apply Hx. by right.
    + by exists k.
Qed.

Section Driver.

Variable standard_fit_transform :
  list (list cell) -> result (list (list cell)).
Variable minmax_fit_transform :
  list (list cell) -> result (list (list cell)).
Variable str_value_counts : list cell -> string.

(** C2 (amended).  [run_transformation_pipeline_auto] collects the
    hits of [data/cleaned/*.csv] and then those of
    [data/processed/*.csv] in one list and loads the most recently
    modified file of the whole list, the first such one in list order
    when several share that time; with no hit at all it raises
    [FileNotFoundError].  So a file under [data/processed] is chosen
    exactly when it is strictly newer than every [data/cleaned] hit. *)
Theorem auto_picks_newest_candidate (now_store : store_clock)
    (now_set : instant) (w : world) :
  (csv_candidates (disk w) = [] ->
   run_transformation_pipeline_auto standard_fit_transform
     minmax_fit_transform str_value_counts now_store now_set w
   = Err (FileNotFoundError
            "No CSV files found in data/cleaned or data/processed"))
  /\ (csv_candidates (disk w) <> [] ->
      exists latest pre post,
        latest_csv (disk w) = Ok latest
        /\ csv_candidates (disk w) = (pre ++ latest :: post)%list
        /\ Forall (fun p => (getmtime (disk w) p
                             < getmtime (disk w) latest)%Z) pre
        /\ Forall (fun p => (getmtime (disk w) p
                             <= getmtime (disk w) latest)%Z) post
        /\ (latest ∈ glob "data/processed/*.csv" (disk w) ->
            Forall (fun p => (getmtime (disk w) p
                              < getmtime (disk w) latest)%Z)
                   (glob "data/cleaned/*.csv" (disk w)))
        /\ run_transformation_pipeline_auto standard_fit_transform
             minmax_fit_transform str_value_counts now_store now_set w
           = (df ← read_csv latest (disk w);
              run_transformation_pipeline standard_fit_transform
                minmax_fit_transform str_value_counts now_store now_set
                df w)).
Proof.
  assert (Hc : forall fs,
    flat_map (fun pattern => glob pattern fs)
      ["data/cleaned/*.csv"; "data/processed/*.csv"] = csv_candidates fs).
  { intros fs. unfold csv_candidates. simpl. by rewrite app_nil_r. }
  unfold run_transformation_pipeline_auto, latest_csv. cbn zeta.
  rewrite Hc. split.
  - intros Hnil. by rewrite Hnil.
  - intros Hne.
    destruct (max_by (getmtime (disk w)) (csv_candidates (disk w)))
      as [latest|] eqn:Hmax.
    + destruct (max_by_spec _ _ _ Hmax) as (pre & post & Heq & Hpre & Hpost).
      exists latest, pre, post. repeat split; try done.
      intros Hproc. unfold csv_candidates in Heq.
      destruct (prefix_split _ _ _ _ _ Heq) as [k ->].
      * intros Hclean. apply glob_hit, cleaned_is_not_processed in Hclean.
        apply glob_hit in Hproc. congruence.
      * by apply Forall_app in Hpre as [? _].
    + by apply max_by_none in Hmax.
Qed.

End Driver.

(** C4, the amended statement on the world where [one_customer] is
    stored: a second set named at the same second is refused. *)
Lemma repeated_set_id_witness :
  create_training_set label_summary same_second "churn_prediction_v1" None
    world_after_first_set
  = Err IntegrityError.
Proof.
  apply (repeated_set_id_is_rejected label_summary noon same_second
           "churn_prediction_v1" None stored_world world_after_first_set
           (first_set_id, first_set_path)).
  - exists []. vm_compute. reflexivity.
  - vm_compute. reflexivity.
  - reflexivity.
Defined.

(** C4 as stated fails: the first call returns its set id and path,
    the second one within the same second raises. *)
Lemma same_second_set_id_raises :
  create_training_set label_summary noon "churn_prediction_v1" None
    stored_world
  = Ok (world_after_first_set, (first_set_id, first_set_path))
  /\ strftime same_second = strftime noon
  /\ is_ok (create_training_set label_summary same_second
              "churn_prediction_v1" None world_after_first_set) = false.
Proof. repeat split; vm_compute; reflexivity. Qed.

(** C2, the amended statement on [fresh_world]. *)
Lemma auto_picks_newest_witness :
  exists latest pre post,
    latest_csv (disk fresh_world) = Ok latest
    /\ csv_candidates (disk fresh_world) = (pre ++ latest :: post)%list
    /\ Forall (fun p => (getmtime (disk fresh_world) p
                         < getmtime (disk fresh_world) latest)%Z) pre.
Proof.
  destruct (proj2 (auto_picks_newest_candidate shift_by_one halve
                     label_summary noon_store noon fresh_world))
    as (latest & pre & post & Hlatest & Hsplit & Hpre & _).
  - vm_compute. discriminate.
  - exists latest, pre, post. repeat split; assumption.
Defined.

(** C2 as stated fails: [data/cleaned] holds a CSV, and the newer file
    under [data/processed] is the one the driver loads. *)
Lemma newer_processed_file_wins :
  glob "data/cleaned/*.csv" two_directories = ["data/cleaned/churn.csv"]
  /\ latest_csv two_directories = Ok "data/processed/cleaned_data.csv"
  /\ run_transformation_pipeline_auto shift_by_one halve label_summary
       noon_store noon fresh_world
     = run_transformation_pipeline shift_by_one halve label_summary
         noon_store noon coded_services fresh_world
  /\ is_ok (run_transformation_pipeline_auto shift_by_one halve
              label_summary noon_store noon fresh_world) = true.
Proof. repeat split; vm_compute; reflexivity. Qed.

(** C7.  Storing a frame that lists customer C1 twice: the table
    [setup_database] made had [customer_id] as its primary key, the
    table after the replace has no key, and it holds both rows of C1. *)
Theorem duplicate_customer_ids_are_stored :
  exists db,
    store_transformed_data noon_store repeated_customer
      "customer_features" fresh_database = Ok db
    /\ t_pk <$> db_tables fresh_database !! "customer_features"
       = Some (Some "customer_id")
    /\ t_pk <$> db_tables db !! "customer_features" = Some None
    /\ length (select_where "customer_features" "customer_id"
                 (Str "C1") db) = 2.
Proof.
  eexists. split; [vm_compute; reflexivity|].
  repeat split; vm_compute; reflexivity.
Qed.

(** C8.  After [setup_database] the three indexes exist; one
    [store_transformed_data] later the three tables are still there
    and no index is left. *)
Theorem indexes_lost_after_replace :
  exists db,
    store_transformed_data noon_store one_customer_scaled
      "customer_features" fresh_database = Ok db
    /\ setup_database empty_database = Ok fresh_database
    /\ map fst (map_to_list (db_indexes fresh_database))
       = ["idx_customer_features_churn"; "idx_customer_features_charges";
          "idx_customer_features_tenure"]
    /\ map fst (map_to_list (db_tables db))
       = ["customer_features"; "feature_metadata"; "training_sets"]
    /\ db_indexes db = ∅.
Proof.
  eexists. split; [vm_compute; reflexivity|].
  repeat split; vm_compute; reflexivity.
Qed.
